(** * Outline and title inference for paginated documents

    A shallow embedding of [Challenge_1a/process_pdfs_improved.py] and the
    properties of its title selector, font-level classifier, heading
    classifier, outline builder and per-document orchestrator.

    Conventions of the embedding.
    - A Python [str] is a [string]; a character is a code point below 256
      (Latin-1), which is where [str.strip], [str.lower] and the [re] classes
      used by the program act character by character.
    - A Python [int] is a [Z].  A font size or a vertical position is a finite
      [float]; the program only compares them, negates them and takes maxima,
      all of which are exact, so a float is embedded as the integer number of
      least positive subnormals it is made of (a [Z]); [0.0] is [0].
    - A [dict] keyed by font size is a [gmap Z string], the [set] of seen
      heading keys is a [gset (string * Z)].
    - Code that can raise returns a [result]; code that reads files, writes
      files or prints runs in the state-and-exception monad [M].
    - The world outside the program is not modelled but given: what
      [fitz.open] finds at a path, whether [open] and [json.dump] raise at a
      path, and what [os.makedirs] and [os.listdir] do are inputs of the
      statements. *)

From Stdlib Require Import ZArith List String Ascii Bool Lia DecimalString.
From Stdlib Require Import Sorting.Sorted Sorting.Permutation.
From stdpp Require Import base gmap sets list strings sorting.

Local Open Scope string_scope.
Local Open Scope Z_scope.

(** ** Python strings *)

Module PyStr.

(** [str.isspace] on one code point below 256; also the class [\s] of [re]
    on [str] patterns. *)
Definition is_space (c : ascii) : bool :=
  let n := N_of_ascii c in
  ((9 <=? n) && (n <=? 13) || (28 <=? n) && (n <=? 32)
   || (n =? 133) || (n =? 160))%N.

Definition is_digit (c : ascii) : bool :=
  let n := N_of_ascii c in ((48 <=? n) && (n <=? 57))%N.

Definition is_upper_az (c : ascii) : bool :=
  let n := N_of_ascii c in ((65 <=? n) && (n <=? 90))%N.

Definition is_lower_az (c : ascii) : bool :=
  let n := N_of_ascii c in ((97 <=? n) && (n <=? 122))%N.

(** [len(s)] *)
Definition len (s : string) : Z := Z.of_nat (String.length s).

Fixpoint lstrip (s : string) : string :=
  match s with
  | EmptyString => EmptyString
  | String c s' => if is_space c then lstrip s' else s
  end.

Definition is_empty (s : string) : bool :=
  match s with EmptyString => true | String _ _ => false end.

Fixpoint rstrip (s : string) : string :=
  match s with
  | EmptyString => EmptyString
  | String c s' =>
      let r := rstrip s' in
      if is_space c && is_empty r then EmptyString else String c r
  end.

(** [s.strip()] *)
Definition strip (s : string) : string := rstrip (lstrip s).

(** [str.lower] on one code point below 256: A-Z and the Latin-1 capitals
    (0xC0-0xDE without the multiplication sign 0xD7) move up by 32. *)
Definition lower_char (c : ascii) : ascii :=
  let n := N_of_ascii c in
  if ((65 <=? n) && (n <=? 90)
      || (192 <=? n) && (n <=? 222) && negb (n =? 215))%N
  then ascii_of_N (n + 32) else c.

(** [s.lower()] on a text of code points below 256.  Beyond that range
    [str.lower] can change the number of code points (U+0130 becomes two);
    the statements about deduplication keys below use nothing of [lower],
    so they do not depend on the range. *)
Fixpoint lower (s : string) : string :=
  match s with
  | EmptyString => EmptyString
  | String c s' => String (lower_char c) (lower s')
  end.

(** [s.startswith(p)] *)
Definition startswith (s p : string) : bool := String.prefix p s.

(** [s.endswith(p)] *)
Definition endswith (s p : string) : bool :=
  let n := String.length s in
  let m := String.length p in
  (m <=? n)%nat && String.eqb (String.substring (n - m) m s) p.

(** [p in s] *)
Fixpoint contains (p s : string) : bool :=
  String.prefix p s
  || match s with
     | EmptyString => false
     | String _ s' => contains p s'
     end.

(** [re.sub(r'\s+', ' ', s)]: every maximal run of whitespace becomes one
    space.  [in_ws] tells that the previous character was whitespace. *)
Fixpoint sub_ws (in_ws : bool) (s : string) : string :=
  match s with
  | EmptyString => EmptyString
  | String c s' =>
      if is_space c
      then if in_ws then sub_ws true s' else String " "%char (sub_ws true s')
      else String c (sub_ws false s')
  end.

Definition collapse_ws (s : string) : string := sub_ws false s.

(** [s.replace(old, new)] for a non-empty [old]: non-overlapping
    occurrences, leftmost first.  [skip] counts the characters of an
    occurrence still to be dropped. *)
Fixpoint replace_from (old new : string) (skip : nat) (s : string) : string :=
  match s with
  | EmptyString => EmptyString
  | String c s' =>
      match skip with
      | S k => replace_from old new k s'
      | O =>
          if String.prefix old s
          then new +:+ replace_from old new (String.length old - 1) s'
          else String c (replace_from old new 0 s')
      end
  end.

Definition replace (s old new : string) : string := replace_from old new 0 s.

(** [str(n)] for an [int] *)
Definition str_of_int (n : Z) : string := NilZero.string_of_int (Z.to_int n).

End PyStr.

(** ** The fragment of [re] the program uses *)

Module Re.

Inductive regex : Type :=
| Void
| Eps
| Cls (p : ascii → bool)
| Cat (r1 r2 : regex)
| Alt (r1 r2 : regex)
| Star (r : regex).

Definition Plus (r : regex) : regex := Cat r (Star r).
Definition Opt (r : regex) : regex := Alt r Eps.
Definition Chr (c : ascii) : regex := Cls (Ascii.eqb c).

Fixpoint Lit (s : string) : regex :=
  match s with
  | EmptyString => Eps
  | String c s' => Cat (Chr c) (Lit s')
  end.

Fixpoint nullable (r : regex) : bool :=
  match r with
  | Void => false
  | Eps => true
  | Cls _ => false
  | Cat r1 r2 => nullable r1 && nullable r2
  | Alt r1 r2 => nullable r1 || nullable r2
  | Star _ => true
  end.

(** Brzozowski derivative *)
Fixpoint deriv (c : ascii) (r : regex) : regex :=
  match r with
  | Void => Void
  | Eps => Void
  | Cls p => if p c then Eps else Void
  | Cat r1 r2 =>
      if nullable r1
      then Alt (Cat (deriv c r1) r2) (deriv c r2)
      else Cat (deriv c r1) r2
  | Alt r1 r2 => Alt (deriv c r1) (deriv c r2)
  | Star r1 => Cat (deriv c r1) (Star r1)
  end.

(** where [$] matches: at the end, or before a newline that ends the
    string *)
Definition at_dollar (s : string) : bool :=
  match s with
  | EmptyString => true
  | String c EmptyString => Ascii.eqb c "010"%char
  | _ => false
  end.

(** A pattern is a body anchored at the start and a flag telling whether it
    ends in [$]. *)
Record pattern := { body : regex; dollar : bool }.

Fixpoint match_from (r : regex) (dol : bool) (s : string) : bool :=
  (nullable r && (negb dol || at_dollar s))
  || match s with
     | EmptyString => false
     | String c s' => match_from (deriv c r) dol s'
     end.

(** [re.match(p, s)] as a truth value: some prefix of [s] matches. *)
Definition re_match (p : pattern) (s : string) : bool :=
  match_from (body p) (dollar p) s.

End Re.

(** ** HeadingClassifier: [is_likely_heading] *)

(** [heading_patterns], in the order of the source:
    [^\d+\.?\s+], [^[A-Z][a-z]+], [^[A-Z\s]+$],
    [^(Chapter|Section|Part|Appendix)]. *)
Definition heading_patterns : list Re.pattern :=
  [ {| Re.body := Re.Cat (Re.Plus (Re.Cls PyStr.is_digit))
                    (Re.Cat (Re.Opt (Re.Chr "."%char))
                       (Re.Plus (Re.Cls PyStr.is_space)));
       Re.dollar := false |};
    {| Re.body := Re.Cat (Re.Cls PyStr.is_upper_az)
                    (Re.Plus (Re.Cls PyStr.is_lower_az));
       Re.dollar := false |};
    {| Re.body := Re.Plus (Re.Cls (λ c, PyStr.is_upper_az c || PyStr.is_space c));
       Re.dollar := true |};
    {| Re.body := Re.Alt (Re.Lit "Chapter")
                    (Re.Alt (Re.Lit "Section")
                       (Re.Alt (Re.Lit "Part") (Re.Lit "Appendix")));
       Re.dollar := false |} ].

(** The body of [is_likely_heading], with the list of patterns it loops over
    as a parameter. *)
Definition is_likely_heading_with (patterns : list Re.pattern)
    (text : string) (font_size : Z) (is_bold : bool)
    (level_mapping : gmap Z string) : bool :=
  if bool_decide (is_Some (level_mapping !! font_size)) then
    let text := PyStr.strip text in
    if 200 <? PyStr.len text then false
    else if existsb (λ p, Re.re_match p text) patterns then true
    else if is_bold && (5 <=? PyStr.len text) && (PyStr.len text <=? 100)
         then true
    else true
  else false.

Definition is_likely_heading (text : string) (font_size : Z) (is_bold : bool)
    (level_mapping : gmap Z string) : bool :=
  is_likely_heading_with heading_patterns text font_size is_bold level_mapping.

(** The effective rule as the specification words it: a run is a heading
    exactly when its size is mapped and its trimmed text has at most 200
    characters. *)
Definition effective_heading_rule (text : string) (font_size : Z)
    (level_mapping : gmap Z string) : bool :=
  bool_decide (font_size ∈ dom level_mapping)
  && (PyStr.len (PyStr.strip text) <=? 200).

(** ** Results, exceptions and the external document parser *)

(** An exception is identified with its message, [str(e)]. *)
Definition exn : Type := string.

Inductive result (A : Type) : Type :=
| Ok (a : A)
| Raise (e : exn).
Arguments Ok {A} a.
Arguments Raise {A} e.

(** What [page.get_text("dict")] returns: blocks of lines of spans. *)
Record span := {
  span_text : string;     (* span["text"] *)
  span_size : Z;          (* span["size"] *)
  span_font : string;     (* span["font"] *)
  span_bbox_y : Z         (* span["bbox"][1] *)
}.

Record line := {
  line_spans : list span; (* line["spans"] *)
  line_bbox_y : Z         (* line["bbox"][1] *)
}.

Record block := {
  block_type : Z;         (* block["type"], 0 for text *)
  block_lines : list line (* block["lines"], read for text blocks only *)
}.

(** One entry of [doc.get_toc()]: level, title, page number. *)
Definition toc_item : Type := Z * string * Z.

(** An opened document.  [get_toc] and the text extraction of a page are
    calls into the parser and may raise. *)
Record document := {
  doc_metadata_title : option string;      (* doc.metadata.get("title") *)
  doc_get_toc : result (list toc_item);    (* doc.get_toc() *)
  doc_pages : list (result (list block))   (* doc[i].get_text("dict")["blocks"] *)
}.

(** ** Sorting as [list.sort] and [sorted] do: stable, by key *)

Section PySort.
Context {A K : Type} (key : A → K) (le : K → K → bool).

Fixpoint insert_by (x : A) (l : list A) : list A :=
  match l with
  | [] => [x]
  | y :: l' => if le (key x) (key y) then x :: l else y :: insert_by x l'
  end.

Fixpoint sort_by (l : list A) : list A :=
  match l with
  | [] => []
  | x :: l' => insert_by x (sort_by l')
  end.
End PySort.

(** Order of the tuples [(y_pos, -font_size)]. *)
Definition tuple_le (a b : Z * Z) : bool :=
  (a.1 <? b.1) || (a.1 =? b.1) && (a.2 <=? b.2).

(** ** TitleSelector: [extract_title_from_pdf] *)

Record candidate := {
  cand_text : string;
  cand_font_size : Z;
  cand_y_pos : Z
}.

(** The loop over the spans of one line: the running [line_text] and
    [max_font_size]. *)
Definition line_scan (spans : list span) : string * Z :=
  fold_left
    (λ (acc : string * Z) (sp : span),
       let text := PyStr.strip (span_text sp) in
       if PyStr.is_empty text then acc
       else (acc.1 +:+ text +:+ " ", Z.max acc.2 (span_size sp)))
    spans (EmptyString, 0).

Definition line_candidates (ln : line) : list candidate :=
  let acc := line_scan (line_spans ln) in
  let line_text := PyStr.strip acc.1 in
  if negb (PyStr.is_empty line_text) && (3 <? PyStr.len line_text)
  then [ {| cand_text := line_text;
            cand_font_size := acc.2;
            cand_y_pos := line_bbox_y ln |} ]
  else [].

Definition title_candidates (blocks : list block) : list candidate :=
  flat_map
    (λ b, if negb (block_type b =? 0) then []
          else flat_map line_candidates (block_lines b))
    blocks.

Definition candidate_key (c : candidate) : Z * Z :=
  (cand_y_pos c, - cand_font_size c).

Definition sorted_candidates (blocks : list block) : list candidate :=
  sort_by candidate_key tuple_le (title_candidates blocks).

(** Truth value of a string that may be [None]. *)
Definition truthy (o : option string) : bool :=
  match o with
  | Some s => negb (PyStr.is_empty s)
  | None => false
  end.

(** The body of [extract_title_from_pdf] once the document is open. *)
Definition title_of_document (doc : document) : result string :=
  if truthy (doc_metadata_title doc)
     && negb (PyStr.is_empty (PyStr.strip (default EmptyString (doc_metadata_title doc))))
  then Ok (PyStr.strip (default EmptyString (doc_metadata_title doc)))
  else
    match doc_pages doc with
    | [] => Ok "Untitled Document"
    | Raise e :: _ => Raise e
    | Ok blocks :: _ =>
        let cands := sorted_candidates blocks in
        match find (λ c, 10 <=? PyStr.len (cand_text c)) cands with
        | Some c => Ok (cand_text c)
        | None =>
            match cands with
            | c :: _ => Ok (cand_text c)
            | [] => Ok "Untitled Document"
            end
        end
    end.

(** ** FontLevelClassifier: [detect_heading_levels] *)

Record span_info := {
  si_text : string;
  si_font_size : Z;
  si_font_name : string;
  si_bold : bool;
  si_page : Z;
  si_y_pos : Z
}.

(** The [if]/[elif] chain on the index [i]. *)
Definition level_label (i : nat) : string :=
  match i with
  | 0%nat => "H1"
  | 1%nat => "H2"
  | 2%nat => "H3"
  | 3%nat => "H4"
  | 4%nat => "H5"
  | _ => "H6"
  end.

(** The loop [for i, size in enumerate(...)], from index [i] on. *)
Fixpoint assign_levels (i : nat) (sizes : list Z) (level_mapping : gmap Z string)
    : gmap Z string :=
  match sizes with
  | [] => level_mapping
  | size :: rest => assign_levels (S i) rest (<[size := level_label i]> level_mapping)
  end.

(** [if span_info["font_size"]]: a size of zero is falsy and is skipped. *)
Definition collect_font_sizes (spans_data : list span_info) : list Z :=
  List.filter (λ z, negb (z =? 0)) (map si_font_size spans_data).

(** [sorted(set(font_sizes), reverse=True)] *)
Definition unique_sizes_of (font_sizes : list Z) : list Z :=
  sort_by id (λ a b, b <=? a) (elements (list_to_set font_sizes : gset Z)).

Definition detect_heading_levels (spans_data : list span_info) : gmap Z string :=
  let font_sizes := collect_font_sizes spans_data in
  match font_sizes with
  | [] => ∅
  | _ => assign_levels 0 (take 6 (unique_sizes_of font_sizes)) ∅
  end.

(** ** OutlineBuilder: [extract_outline_from_pdf] *)

Record outline_entry := {
  oe_level : string;
  oe_text : string;
  oe_page : Z
}.

(** One turn of the loop over [toc]. *)
Definition toc_entry (item : toc_item) : outline_entry :=
  let '(level, title, page_num) := item in
  {| oe_level := "H" +:+ PyStr.str_of_int (Z.min level 6);
     oe_text := PyStr.strip title;
     oe_page := page_num |}.

Definition is_bold_font (font : string) : bool :=
  PyStr.contains "Bold" font || PyStr.contains "bold" (PyStr.lower font).

(** The spans a page contributes to [spans_data]; [page_num] counts from 0. *)
Definition span_infos (page_num : Z) (sp : span) : list span_info :=
  let text := PyStr.strip (span_text sp) in
  if PyStr.is_empty text then []
  else [ {| si_text := text;
            si_font_size := span_size sp;
            si_font_name := span_font sp;
            si_bold := is_bold_font (span_font sp);
            si_page := page_num + 1;
            si_y_pos := span_bbox_y sp |} ].

Definition page_spans (page_num : Z) (blocks : list block) : list span_info :=
  flat_map
    (λ b, if negb (block_type b =? 0) then []
          else flat_map (λ ln, flat_map (span_infos page_num) (line_spans ln))
                 (block_lines b))
    blocks.

(** The loop [for page_num in range(len(doc))], from page [page_num] on. *)
Fixpoint collect_spans (page_num : Z) (pages : list (result (list block)))
    : result (list span_info) :=
  match pages with
  | [] => Ok []
  | Raise e :: _ => Raise e
  | Ok blocks :: rest =>
      match collect_spans (page_num + 1) rest with
      | Ok spans_data => Ok ((page_spans page_num blocks ++ spans_data)%list)
      | Raise e => Raise e
      end
  end.

Definition heading_key (span_info : span_info) : string * Z :=
  (PyStr.lower (PyStr.strip (si_text span_info)), si_page span_info).

(** The text an entry carries: trimmed, then whitespace collapsed. *)
Definition heading_text (span_info : span_info) : string :=
  PyStr.collapse_ws (PyStr.strip (si_text span_info)).

(** The heuristic components are parameters of the builder, so that a
    statement can range over them; [extract_outline_from_pdf] below fixes
    them to [detect_heading_levels] and [is_likely_heading]. *)
Section OutlineBuilder.
Variable detect : list span_info → gmap Z string.
Variable classify : string → Z → bool → gmap Z string → bool.

(** One turn of the loop over [spans_data]; the state is [outline] and
    [seen_headings].  The lookup [level_mapping[font_size]] is total here:
    it is reached only when the classifier has accepted the size. *)
Definition heading_step (level_mapping : gmap Z string)
    (st : list outline_entry * gset (string * Z)) (span_info : span_info)
    : list outline_entry * gset (string * Z) :=
  if classify (si_text span_info) (si_font_size span_info)
       (si_bold span_info) level_mapping
  then
    if bool_decide (heading_key span_info ∈ st.2) then st
    else
      let seen_headings := st.2 ∪ {[ heading_key span_info ]} in
      let text := heading_text span_info in
      if 3 <=? PyStr.len text
      then ((st.1 ++ [ {| oe_level := level_mapping !!! si_font_size span_info;
                          oe_text := text;
                          oe_page := si_page span_info |} ])%list,
            seen_headings)
      else (st.1, seen_headings)
  else st.

Definition heading_loop (level_mapping : gmap Z string)
    (spans_data : list span_info)
    (st : list outline_entry * gset (string * Z))
    : list outline_entry * gset (string * Z) :=
  fold_left (heading_step level_mapping) spans_data st.

(** The fallback of [extract_outline_from_pdf], from [spans_data] on. *)
Definition heuristic_outline (spans_data : list span_info) : list outline_entry :=
  let level_mapping := detect spans_data in
  let st := heading_loop level_mapping spans_data ([], ∅) in
  sort_by oe_page Z.leb st.1.

(** The body of [extract_outline_from_pdf] once the document is open. *)
Definition outline_with (doc : document) : result (list outline_entry) :=
  match doc_get_toc doc with
  | Raise e => Raise e
  | Ok (item :: items) => Ok (map toc_entry (item :: items))
  | Ok [] =>
      match collect_spans 0 (doc_pages doc) with
      | Raise e => Raise e
      | Ok spans_data => Ok (heuristic_outline spans_data)
      end
  end.
End OutlineBuilder.

Definition outline_of_document (doc : document) : result (list outline_entry) :=
  outline_with detect_heading_levels is_likely_heading doc.

(** ** The world of the orchestrator: documents, output files, standard output *)

(** The result pair of one document, as handed to [json.dump]. *)
Record output_data := {
  od_title : string;
  od_outline : list outline_entry
}.

(** What an output file holds: nothing (opened for writing, so truncated), a
    beginning of the serialisation of a result that is not all of it (possibly
    nothing of it), or the complete serialisation. *)
Inductive file_content : Type :=
| Truncated
| PartialJson (d : output_data)
| JsonDoc (d : output_data).

(** The operations the program performs on output files: [open(path, "w")]
    that went through, a [json.dump] into the file that raised on its way,
    and a [json.dump] that ran to its end, the file being closed when the
    [with] block is left either way. *)
Inductive fs_op : Type :=
| OpOpenW (path : string)
| OpPartial (path : string) (d : output_data)
| OpDump (path : string) (d : output_data).

(** [open] and [json.dump] can raise (a missing directory, a path that is a
    directory, no permission, a full disk, a text that cannot be encoded).
    Whether they do is given by the world, for each path and each result; the
    program has no means to change it, and it is the same at every attempt:
    a path that cannot be opened stays so for the whole run. *)
Record world := {
  w_files : gmap string (result document);  (* what fitz.open gives on a path *)
  w_open_fault : string → option exn;       (* what open(path, "w") raises, if it does *)
  w_dump_fault : string → output_data → option exn;
                                            (* what json.dump of a result into the file
                                               at a path raises, if it does *)
  w_fsops : list fs_op;                     (* output-file operations so far, oldest first *)
  w_stdout : list string                    (* lines printed so far, oldest first *)
}.

(** What an operation leaves in its file. *)
Definition apply_op (files : gmap string file_content) (op : fs_op)
    : gmap string file_content :=
  match op with
  | OpOpenW path => <[path := Truncated]> files
  | OpPartial path d => <[path := PartialJson d]> files
  | OpDump path d => <[path := JsonDoc d]> files
  end.

(** The output files after a sequence of operations. *)
Definition output_files (ops : list fs_op) : gmap string file_content :=
  fold_left apply_op ops ∅.

Definition op_path (op : fs_op) : string :=
  match op with
  | OpOpenW path => path
  | OpPartial path _ => path
  | OpDump path _ => path
  end.

(** What the file of an operation holds while the operation runs, the last of
    them being what it is left with: [json.dump] writes the serialisation
    piece by piece, so a dump that runs to its end has the file hold
    beginnings of the serialisation first. *)
Definition contents_during (op : fs_op) : list file_content :=
  match op with
  | OpOpenW _ => [Truncated]
  | OpPartial _ d => [PartialJson d]
  | OpDump _ d => [PartialJson d; JsonDoc d]
  end.

(** State and exceptions; what was done before a [raise] stays done. *)
Definition M (A : Type) : Type := world → result A * world.

Definition ret {A} (a : A) : M A := λ w, (Ok a, w).

Definition bind {A B} (m : M A) (k : A → M B) : M B :=
  λ w, match m w with
       | (Ok a, w') => k a w'
       | (Raise e, w') => (Raise e, w')
       end.

Notation "'let*' x ':=' m 'in' k" := (bind m (λ x, k))
  (at level 10, x name, m at level 100, k at level 200).
Notation "m ';;;' k" := (bind m (λ _, k))
  (at level 100, k at level 200, right associativity).

Definition lift {A} (r : result A) : M A := λ w, (r, w).

(** [try: body except Exception as e: handler(e)] *)
Definition try_except {A} (body : M A) (handler : exn → M A) : M A :=
  λ w, match body w with
       | (Ok a, w') => (Ok a, w')
       | (Raise e, w') => handler e w'
       end.

(** The world with one more line printed. *)
Definition log_line (s : string) (w : world) : world :=
  {| w_files := w_files w; w_open_fault := w_open_fault w;
     w_dump_fault := w_dump_fault w;
     w_fsops := w_fsops w; w_stdout := (w_stdout w ++ [s])%list |}.

(** The world with more operations done on output files. *)
Definition log_ops (ops : list fs_op) (w : world) : world :=
  {| w_files := w_files w; w_open_fault := w_open_fault w;
     w_dump_fault := w_dump_fault w;
     w_fsops := (w_fsops w ++ ops)%list; w_stdout := w_stdout w |}.

Definition print (s : string) : M unit :=
  λ w, (Ok tt, log_line s w).

(** [fitz.open(pdf_path)] *)
Definition fitz_open (pdf_path : string) : M document :=
  λ w, match w_files w !! pdf_path with
       | Some r => (r, w)
       | None => (Raise ("no such file: '" +:+ pdf_path +:+ "'"), w)
       end.

(** [open(path, "w", encoding="utf-8")]: raises and leaves the files as they
    are, or truncates the file. *)
Definition open_w (path : string) : M unit :=
  λ w, match w_open_fault w path with
       | Some e => (Raise e, w)
       | None => (Ok tt, log_ops [OpOpenW path] w)
       end.

(** [json.dump(d, f, indent=2, ensure_ascii=False)] into the file opened at
    [path], up to the end of the [with] block: raises and leaves a beginning
    of the serialisation, or writes all of it. *)
Definition json_dump (path : string) (d : output_data) : M unit :=
  λ w, match w_dump_fault w path d with
       | Some e => (Raise e, log_ops [OpPartial path d] w)
       | None => (Ok tt, log_ops [OpDump path d] w)
       end.

(** [os.path.join(a, b)] *)
Definition os_path_join (a b : string) : string :=
  if PyStr.startswith b "/" then b
  else if PyStr.is_empty a || PyStr.endswith a "/" then a +:+ b
  else a +:+ "/" +:+ b.

(** ** Orchestrator *)

Definition extract_title_from_pdf (pdf_path : string) : M string :=
  let* doc := fitz_open pdf_path in
  lift (title_of_document doc).

Definition extract_outline_from_pdf (pdf_path : string) : M (list outline_entry) :=
  let* doc := fitz_open pdf_path in
  lift (outline_of_document doc).

(** [with open(output_path, "w", encoding="utf-8") as f: json.dump(d, f, ...)] *)
Definition write_json (output_path : string) (d : output_data) : M unit :=
  open_w output_path ;;;
  json_dump output_path d.

Definition error_output : output_data :=
  {| od_title := "Processing Error"; od_outline := [] |}.

Definition process_single_pdf (pdf_path output_path : string) : M bool :=
  try_except
    (let* title := extract_title_from_pdf pdf_path in
     let* outline := extract_outline_from_pdf pdf_path in
     write_json output_path {| od_title := title; od_outline := outline |} ;;;
     ret true)
    (λ e,
       print ("Error processing " +:+ pdf_path +:+ ": " +:+ e) ;;;
       write_json output_path error_output ;;;
       ret false).

(** The loop of [process_all_pdfs] over the listing, with its two counters. *)
Fixpoint process_files (input_dir output_dir : string) (filenames : list string)
    (processed_count error_count : Z) : M (Z * Z) :=
  match filenames with
  | [] => ret (processed_count, error_count)
  | filename :: rest =>
      if negb (PyStr.endswith (PyStr.lower filename) ".pdf")
      then process_files input_dir output_dir rest processed_count error_count
      else
        let pdf_path := os_path_join input_dir filename in
        let output_path :=
          os_path_join output_dir (PyStr.replace filename ".pdf" ".json") in
        print ("Processing: " +:+ filename) ;;;
        let* success := process_single_pdf pdf_path output_path in
        if success
        then process_files input_dir output_dir rest (processed_count + 1) error_count
        else process_files input_dir output_dir rest processed_count (error_count + 1)
  end.

(** [process_all_pdfs] calls the operating system twice, for
    [os.makedirs(output_dir, exist_ok=True)] and for [os.listdir(input_dir)].
    What these calls do and whether they raise is left open: they are
    arbitrary actions on the world. *)
Section Batch.
Variable os_makedirs : string → M unit.
Variable os_listdir : string → M (list string).

Definition process_all_pdfs (input_dir output_dir : string) : M unit :=
  os_makedirs output_dir ;;;
  let* filenames := os_listdir input_dir in
  let* counts := process_files input_dir output_dir filenames 0 0 in
  print ("Processing complete. Success: " +:+ PyStr.str_of_int counts.1
         +:+ ", Errors: " +:+ PyStr.str_of_int counts.2).
End Batch.

(** ** Definitions used to state the properties *)

(** The entry the heuristic loop appends for a run. *)
Definition entry_of (level_mapping : gmap Z string) (span_info : span_info)
    : outline_entry :=
  {| oe_level := level_mapping !!! si_font_size span_info;
     oe_text := heading_text span_info;
     oe_page := si_page span_info |}.

(** The heading test of the loop, on a run. *)
Definition heading_run (level_mapping : gmap Z string) (r : span_info) : bool :=
  is_likely_heading (si_text r) (si_font_size r) (si_bold r) level_mapping.

(** The runs for which the loop appends an entry, given the keys seen so far:
    a run counts when it is a heading, its key is new among the headings and
    its collapsed text has at least 3 characters. *)
Fixpoint survivors (level_mapping : gmap Z string) (seen : gset (string * Z))
    (spans_data : list span_info) : list span_info :=
  match spans_data with
  | [] => []
  | r :: rest =>
      if heading_run level_mapping r then
        if bool_decide (heading_key r ∈ seen)
        then survivors level_mapping seen rest
        else
          let later := survivors level_mapping (seen ∪ {[ heading_key r ]}) rest in
          if 3 <=? PyStr.len (heading_text r) then r :: later else later
      else survivors level_mapping seen rest
  end.

(** Two runs that differ at most in their vertical position. *)
Definition same_but_y (a b : span_info) : Prop :=
  si_text a = si_text b ∧ si_font_size a = si_font_size b
  ∧ si_font_name a = si_font_name b ∧ si_bold a = si_bold b
  ∧ si_page a = si_page b.

(** The distinct sizes [detect_heading_levels] ranks: those that pass its
    truth test. *)
Definition ranked_sizes (spans_data : list span_info) : gset Z :=
  list_to_set (collect_font_sizes spans_data).

(** All the distinct sizes of the runs. *)
Definition distinct_sizes (spans_data : list span_info) : gset Z :=
  list_to_set (map si_font_size spans_data).

(** How many sizes of [D] are strictly larger than [k]. *)
Definition larger_in (D : gset Z) (k : Z) : nat :=
  size (filter (λ d, k < d) D).

(** The world after a failed document whose sentinel file could be written:
    the message and the sentinel file. *)
Definition world_after_failure (pdf_path output_path : string) (e : exn)
    (w : world) : world :=
  {| w_files := w_files w;
     w_open_fault := w_open_fault w;
     w_dump_fault := w_dump_fault w;
     w_fsops := (w_fsops w ++ [OpOpenW output_path; OpDump output_path error_output])%list;
     w_stdout := (w_stdout w ++ ["Error processing " +:+ pdf_path +:+ ": " +:+ e])%list |}.

(** The world after a document that went through. *)
Definition world_after_success (output_path : string) (d : output_data)
    (w : world) : world :=
  {| w_files := w_files w;
     w_open_fault := w_open_fault w;
     w_dump_fault := w_dump_fault w;
     w_fsops := (w_fsops w ++ [OpOpenW output_path; OpDump output_path d])%list;
     w_stdout := w_stdout w |}.

(** What [write_json] does to the files of a world, and the exception it
    ends with, if any. *)
Definition write_ops (w : world) (path : string) (d : output_data) : list fs_op :=
  match w_open_fault w path with
  | Some _ => []
  | None =>
      match w_dump_fault w path d with
      | Some _ => [OpOpenW path; OpPartial path d]
      | None => [OpOpenW path; OpDump path d]
      end
  end.

Definition write_error (w : world) (path : string) (d : output_data) : option exn :=
  match w_open_fault w path with
  | Some e => Some e
  | None => w_dump_fault w path d
  end.

(** An output path that can be opened for writing and into which every
    result can be dumped. *)
Definition writable (w : world) (path : string) : Prop :=
  w_open_fault w path = None ∧ ∀ d, w_dump_fault w path d = None.

(** The contents a file goes through under a sequence of operations. *)
Definition contents_trace (path : string) (ops : list fs_op) : list file_content :=
  flat_map (λ op, if String.eqb (op_path op) path then contents_during op else [])
    ops.

(** How many names of a listing the batch takes for documents. *)
Definition pdf_names (filenames : list string) : list string :=
  List.filter (λ filename, PyStr.endswith (PyStr.lower filename) ".pdf") filenames.

(** ** Definitions used to state further properties *)

(** [" ".join(ts)] *)
Fixpoint join_space (ts : list string) : string :=
  match ts with
  | [] => EmptyString
  | [t] => t
  | t :: rest => t +:+ " " +:+ join_space rest
  end.

(** The trimmed texts of the spans of a line that are not blank. *)
Definition run_texts (spans : list span) : list string :=
  List.filter (λ t, negb (PyStr.is_empty t))
    (map (λ sp, PyStr.strip (span_text sp)) spans).

(** The sizes of the spans of a line that are not blank. *)
Definition run_sizes (spans : list span) : list Z :=
  map span_size
    (List.filter (λ sp, negb (PyStr.is_empty (PyStr.strip (span_text sp)))) spans).

(** The lines of the text blocks of a page, in scan order. *)
Definition text_lines (blocks : list block) : list line :=
  flat_map (λ b, if block_type b =? 0 then block_lines b else []) blocks.

(** What a line offers for a title: the trimmed texts of its spans that are
    not blank, joined by single spaces, with the largest of their sizes and
    the top of the line. *)
Definition line_candidate (ln : line) : candidate :=
  {| cand_text := join_space (run_texts (line_spans ln));
     cand_font_size := fold_left Z.max (run_sizes (line_spans ln)) 0;
     cand_y_pos := line_bbox_y ln |}.

(** The six level labels. *)
Definition level_labels : list string := ["H1"; "H2"; "H3"; "H4"; "H5"; "H6"].

(** Whether the metadata title is used. *)
Definition metadata_usable (doc : document) : bool :=
  match doc_metadata_title doc with
  | Some t => negb (PyStr.is_empty (PyStr.strip t))
  | None => false
  end.

(** What the two extractions give for a path, read off the files: the result
    pair, or the first exception. *)
Definition document_result (files : gmap string (result document))
    (pdf_path : string) : result output_data :=
  match files !! pdf_path with
  | Some (Ok doc) =>
      match title_of_document doc with
      | Ok title =>
          match outline_of_document doc with
          | Ok outline => Ok {| od_title := title; od_outline := outline |}
          | Raise e => Raise e
          end
      | Raise e => Raise e
      end
  | Some (Raise e) => Raise e
  | None => Raise ("no such file: '" +:+ pdf_path +:+ "'")
  end.

Definition is_ok {A} (r : result A) : bool :=
  match r with Ok _ => true | Raise _ => false end.

(** The pair that ends up in the output file: the result, or the sentinel. *)
Definition written (r : result output_data) : output_data :=
  match r with Ok d => d | Raise _ => error_output end.

(** What an operation leaves in its file. *)
Definition op_content (op : fs_op) : file_content :=
  match op with
  | OpOpenW _ => Truncated
  | OpPartial _ d => PartialJson d
  | OpDump _ d => JsonDoc d
  end.

(** The world with more operations done and more lines printed. *)
Definition log (ops : list fs_op) (lines : list string) (w : world) : world :=
  {| w_files := w_files w; w_open_fault := w_open_fault w;
     w_dump_fault := w_dump_fault w;
     w_fsops := (w_fsops w ++ ops)%list; w_stdout := (w_stdout w ++ lines)%list |}.

(** What the [try] block of [process_single_pdf] does to the files, and the
    exception it ends with, if any. *)
Definition try_ops (w : world) (pdf_path output_path : string) : list fs_op :=
  match document_result (w_files w) pdf_path with
  | Ok d => write_ops w output_path d
  | Raise _ => []
  end.

Definition try_error (w : world) (pdf_path output_path : string) : option exn :=
  match document_result (w_files w) pdf_path with
  | Ok d => write_error w output_path d
  | Raise e => Some e
  end.

(** One run of [process_single_pdf]: its operations on files, the lines it
    prints and how it ends. *)
Definition single_ops (w : world) (pdf_path output_path : string) : list fs_op :=
  match try_error w pdf_path output_path with
  | None => try_ops w pdf_path output_path
  | Some _ =>
      (try_ops w pdf_path output_path ++ write_ops w output_path error_output)%list
  end.

Definition single_lines (w : world) (pdf_path output_path : string) : list string :=
  match try_error w pdf_path output_path with
  | None => []
  | Some e => ["Error processing " +:+ pdf_path +:+ ": " +:+ e]
  end.

Definition single_answer (w : world) (pdf_path output_path : string) : result bool :=
  match try_error w pdf_path output_path with
  | None => Ok true
  | Some _ =>
      match write_error w output_path error_output with
      | None => Ok false
      | Some e => Raise e
      end
  end.

(** The output path the batch derives from a name of the listing. *)
Definition output_path_of (output_dir filename : string) : string :=
  os_path_join output_dir (PyStr.replace filename ".pdf" ".json").

(** [world] keeps the files a run opens as documents apart from the files it
    writes.  A statement about a run that reads one file after having written
    another therefore assumes that no output path of the run is the path of
    one of its documents; for a batch over [names] this is [outputs_apart]. *)
Definition outputs_apart (input_dir output_dir : string) (names : list string) : Prop :=
  ∀ f g, f ∈ names → g ∈ names →
         output_path_of output_dir f ≠ os_path_join input_dir g.

(** Every output path of a batch over [names] is writable. *)
Definition outputs_writable (w : world) (output_dir : string) (names : list string)
    : Prop :=
  ∀ f, f ∈ names → writable w (output_path_of output_dir f).

(** The file operations of a batch over the accepted names, in order, when
    every write goes through. *)
Definition batch_ops (files : gmap string (result document))
    (input_dir output_dir : string) (names : list string) : list fs_op :=
  flat_map
    (λ filename,
       [ OpOpenW (output_path_of output_dir filename);
         OpDump (output_path_of output_dir filename)
           (written (document_result files (os_path_join input_dir filename))) ])
    names.

(** The lines a batch prints for the accepted names, in order, when every
    write goes through. *)
Definition batch_lines (files : gmap string (result document))
    (input_dir : string) (names : list string) : list string :=
  flat_map
    (λ filename,
       ("Processing: " +:+ filename)
       :: match document_result files (os_path_join input_dir filename) with
          | Ok _ => []
          | Raise e =>
              [ "Error processing " +:+ os_path_join input_dir filename
                +:+ ": " +:+ e ]
          end)
    names.

(** The accepted names whose extraction goes through, and the others. *)
Definition batch_successes (files : gmap string (result document))
    (input_dir : string) (names : list string) : list string :=
  List.filter (λ filename, is_ok (document_result files (os_path_join input_dir filename)))
    names.

Definition batch_failures (files : gmap string (result document))
    (input_dir : string) (names : list string) : list string :=
  List.filter
    (λ filename, negb (is_ok (document_result files (os_path_join input_dir filename))))
    names.

(** ** Concrete documents and runs used in the examples *)

(** A document with bookmarks, one of them repeated, whose page cannot be read. *)
Definition doc_with_bookmarks : document :=
  {| doc_metadata_title := None;
     doc_get_toc := Ok [(1, "  Intro ", 1); (9, "Deep", 4); (1, "  Intro ", 1)];
     doc_pages := [Raise "damaged page"] |}.

(** A 12pt run on page 1. *)
Definition run_on_page_1 (text : string) : span_info :=
  {| si_text := text; si_font_size := 12; si_font_name := "Helvetica";
     si_bold := false; si_page := 1; si_y_pos := 0 |}.

(** A document without bookmarks whose only page has one line of two spans,
    the texts of which differ in the number of inner spaces only. *)
Definition doc_double_space : document :=
  {| doc_metadata_title := None;
     doc_get_toc := Ok [];
     doc_pages :=
       [Ok [ {| block_type := 0;
                block_lines :=
                  [ {| line_spans :=
                         [ {| span_text := "A  B"; span_size := 12;
                              span_font := "Helvetica"; span_bbox_y := 0 |};
                           {| span_text := "A B"; span_size := 12;
                              span_font := "Helvetica"; span_bbox_y := 0 |} ];
                       line_bbox_y := 0 |} ] |} ]] |}.

(** A run of a given font size. *)
Definition run_of_size (size : Z) : span_info :=
  {| si_text := "Heading"; si_font_size := size; si_font_name := "Helvetica";
     si_bold := false; si_page := 1; si_y_pos := 0 |}.

(** A document with a metadata title whose second page cannot be read. *)
Definition doc_damaged_page : document :=
  {| doc_metadata_title := Some "Annual Report";
     doc_get_toc := Ok [];
     doc_pages := [Ok []; Raise "cannot read page 2"] |}.

Definition world_damaged_page : world :=
  {| w_files := {[ "/app/input/a.pdf" := Ok doc_damaged_page ]};
     w_open_fault := λ _, None;
     w_dump_fault := λ _ _, None;
     w_fsops := [];
     w_stdout := ["Processing: a.pdf"] |}.

(** A document with a metadata title and one bookmark. *)
Definition doc_report : document :=
  {| doc_metadata_title := Some "Annual Report";
     doc_get_toc := Ok [(1, "Summary", 1)];
     doc_pages := [Ok []] |}.

Definition report_result : output_data :=
  {| od_title := "Annual Report";
     od_outline := [ {| oe_level := "H1"; oe_text := "Summary"; oe_page := 1 |} ] |}.

Definition world_report : world :=
  {| w_files := {[ "/app/input/a.pdf" := Ok doc_report ]};
     w_open_fault := λ _, None;
     w_dump_fault := λ _ _, None;
     w_fsops := [];
     w_stdout := [] |}.

(** Two documents, the first with a page that cannot be read, in a world
    where the output file of the first cannot be opened for writing. *)
Definition world_unwritable : world :=
  {| w_files := {[ "/app/input/a.pdf" := Ok doc_damaged_page;
                   "/app/input/b.pdf" := Ok doc_report ]};
     w_open_fault :=
       λ path, if String.eqb path "/app/output/a.json"
               then Some "[Errno 13] Permission denied: '/app/output/a.json'"
               else None;
     w_dump_fault := λ _ _, None;
     w_fsops := [];
     w_stdout := [] |}.

(** A readable document in a world where files can be opened and every dump
    stops on the way. *)
Definition world_disk_full : world :=
  {| w_files := {[ "/app/input/a.pdf" := Ok doc_report ]};
     w_open_fault := λ _, None;
     w_dump_fault := λ _ _, Some "[Errno 28] No space left on device";
     w_fsops := [];
     w_stdout := [] |}.

(** A document whose only page holds an image and a blank span. *)
Definition doc_textless : document :=
  {| doc_metadata_title := None;
     doc_get_toc := Ok [];
     doc_pages := [Ok [ {| block_type := 1; block_lines := [] |};
                        {| block_type := 0;
                           block_lines :=
                             [ {| line_spans :=
                                    [ {| span_text := "   "; span_size := 12;
                                         span_font := "Helvetica";
                                         span_bbox_y := 40 |} ];
                                  line_bbox_y := 40 |} ] |} ]] |}.

(** A scanned document: one image page, and a bookmark. *)
Definition doc_scanned_bookmarked : document :=
  {| doc_metadata_title := None;
     doc_get_toc := Ok [(1, "Cover", 1)];
     doc_pages := [Ok [ {| block_type := 1; block_lines := [] |} ]] |}.

(** The first page of the title example: three lines, of which the short one
    is no candidate. *)
Definition text_line (t : string) (size y : Z) : line :=
  {| line_spans := [ {| span_text := t; span_size := size;
                        span_font := "Helvetica"; span_bbox_y := y |} ];
     line_bbox_y := y |}.

Definition doc_title_example : document :=
  {| doc_metadata_title := Some "   ";
     doc_get_toc := Ok [];
     doc_pages :=
       [Ok [ {| block_type := 0;
                block_lines := [ text_line "Ab" 10 0;
                                 text_line "A Long Enough Title" 20 5;
                                 text_line "Header" 30 1 ] |} ]] |}.

(** A batch: one readable document, one name with an upper-case suffix and
    no file behind it, one name that is not a document. *)
Definition world_batch : world :=
  {| w_files := {[ "/app/input/a.pdf" := Ok doc_report ]};
     w_open_fault := λ _, None;
     w_dump_fault := λ _ _, None;
     w_fsops := [];
     w_stdout := [] |}.

(** Operating-system calls for the examples: an [os.makedirs] that finds the
    directory in place, an [os.listdir] that gives the listing of the batch
    example, and an [os.listdir] that finds no directory. *)
Definition makedirs_in_place (dir : string) : M unit := ret tt.

Definition listdir_batch (dir : string) : M (list string) :=
  ret ["a.pdf"; "b.PDF"; "notes.txt"].

Definition listdir_missing (dir : string) : M (list string) :=
  lift (Raise ("[Errno 2] No such file or directory: '" +:+ dir +:+ "'")).

(** Two runs with the same text, size and page. *)
Definition same_text_size_page (a b : span_info) : Prop :=
  si_text a = si_text b ∧ si_font_size a = si_font_size b ∧ si_page a = si_page b.

(** The runs and the outline of the title example. *)
Definition title_example_run (t : string) (size y : Z) : span_info :=
  {| si_text := t; si_font_size := size; si_font_name := "Helvetica";
     si_bold := false; si_page := 1; si_y_pos := y |}.

Definition title_example_runs : list span_info :=
  [ title_example_run "Ab" 10 0;
    title_example_run "A Long Enough Title" 20 5;
    title_example_run "Header" 30 1 ].

Definition title_example_outline : list outline_entry :=
  [ {| oe_level := "H2"; oe_text := "A Long Enough Title"; oe_page := 1 |};
    {| oe_level := "H1"; oe_text := "Header"; oe_page := 1 |} ].

(** * Properties *)

(** ** Worked examples *)

Example strip_example : PyStr.strip "  My Report  " = "My Report".
Proof. reflexivity. Qed.

Example collapse_ws_example : PyStr.collapse_ws "A 	 B  C" = "A B C".
Proof. reflexivity. Qed.

Example replace_example :
  PyStr.replace "a.pdf.pdf" ".pdf" ".json" = "a.json.json"
  ∧ PyStr.replace "b.PDF" ".pdf" ".json" = "b.PDF".
Proof. split; reflexivity. Qed.

Example heading_patterns_example :
  map (λ t, map (λ p, Re.re_match p t) heading_patterns)
    ["1. Intro"; "2.1 Scope"; "Chapter 3"; "ALL CAPS"; "plain text"]
  = [ [true; false; false; false];
      [false; false; false; false];
      [false; true; false; true];
      [false; false; true; false];
      [false; false; false; false] ].
Proof. vm_compute. reflexivity. Qed.

Example fallthrough_example :
  is_likely_heading "plain text" 12 false {[ 12 := "H1" ]} = true
  ∧ is_likely_heading "Chapter 3" 11 true {[ 12 := "H1" ]} = false.
Proof. split; vm_compute; reflexivity. Qed.

Example detect_heading_levels_example :
  let m := detect_heading_levels
             (map run_of_size [10; 24; 0; 12; 18; 10; 14; 16; 9; 24]) in
  map (λ k, m !! k) [24; 18; 16; 14; 12; 10; 9; 0]
  = [Some "H1"; Some "H2"; Some "H3"; Some "H4"; Some "H5"; Some "H6"; None; None].
Proof. vm_compute. reflexivity. Qed.

Example title_example :
  title_of_document doc_title_example = Ok "A Long Enough Title"
  ∧ map cand_text (sorted_candidates
                     [ {| block_type := 0;
                          block_lines := [ text_line "Ab" 10 0;
                                           text_line "A Long Enough Title" 20 5;
                                           text_line "Header" 30 1 ] |} ])
    = ["Header"; "A Long Enough Title"].
Proof. split; vm_compute; reflexivity. Qed.

Example batch_example :
  let run :=
    process_all_pdfs makedirs_in_place listdir_batch "/app/input" "/app/output"
      world_batch in
  run.1 = Ok tt
  ∧ w_stdout run.2
    = [ "Processing: a.pdf"; "Processing: b.PDF";
        "Error processing /app/input/b.PDF: no such file: '/app/input/b.PDF'";
        "Processing complete. Success: 1, Errors: 1" ]
  ∧ output_files (w_fsops run.2)
    = {[ "/app/output/a.json" := JsonDoc report_result;
         "/app/output/b.PDF" := JsonDoc error_output ]}.
Proof. split_and!; vm_compute; reflexivity. Qed.


(** ** Facts about the stable sort *)

Section SortFacts.
Context {A K : Type} (key : A → K) (le : K → K → bool).
Hypothesis le_total : ∀ a b, le a b = true ∨ le b a = true.
Hypothesis le_trans : ∀ a b c, le a b = true → le b c = true → le a c = true.

Let R (x y : A) : Prop := le (key x) (key y) = true.

Lemma insert_by_perm x l : Permutation (insert_by key le x l) (x :: l).
Proof.
  induction l as [|y l IH]; simpl; [done|].
  destruct (le (key x) (key y)); [done|].
  rewrite IH. apply perm_swap.
Qed.

Lemma sort_by_perm l : Permutation (sort_by key le l) l.
Proof.
  induction l as [|x l IH]; simpl; [done|].
  rewrite insert_by_perm. by constructor.
Qed.

Lemma insert_by_sorted x l :
  StronglySorted R l → StronglySorted R (insert_by key le x l).
Proof.
  induction 1 as [|y l Hs IH Hy]; simpl.
  - repeat constructor.
  - destruct (le (key x) (key y)) eqn:E.
    + constructor; [by constructor|].
      constructor; [exact E|].
      eapply Forall_impl; [exact Hy|]. intros z Hz. unfold R in *. eauto.
    + constructor; [exact IH|].
      rewrite (insert_by_perm x l). constructor; [|exact Hy].
      destruct (le_total (key x) (key y)) as [H1|H1]; [congruence|exact H1].
Qed.

Lemma sort_by_sorted l : StronglySorted R (sort_by key le l).
Proof.
  induction l as [|x l IH]; simpl; [constructor|by apply insert_by_sorted].
Qed.

(** Stability: a class of elements with pairwise comparable-both-ways keys
    keeps its order. *)
Lemma insert_by_stable (P : A → bool) x l :
  (∀ a b, P a = true → P b = true → le (key a) (key b) = true) →
  List.filter P (insert_by key le x l) = List.filter P (x :: l).
Proof.
  intros HP. induction l as [|y l IH]; [done|].
  cbn [insert_by]. destruct (le (key x) (key y)) eqn:E; [done|].
  cbn [List.filter] in *. rewrite IH.
  destruct (P x) eqn:Px, (P y) eqn:Py; try done.
  rewrite (HP x y Px Py) in E. discriminate.
Qed.

Lemma sort_by_stable (P : A → bool) l :
  (∀ a b, P a = true → P b = true → le (key a) (key b) = true) →
  List.filter P (sort_by key le l) = List.filter P l.
Proof.
  intros HP. induction l as [|x l IH]; [done|].
  cbn [sort_by]. rewrite insert_by_stable by done.
  cbn [List.filter]. by rewrite IH.
Qed.

(** A list already in order is left as it is. *)
Lemma sort_by_sorted_id l : StronglySorted R l → sort_by key le l = l.
Proof.
  induction 1 as [|x l Hs IH Hx]; [done|].
  cbn [sort_by]. rewrite IH.
  destruct Hx as [|y l' Hy _]; [done|].
  cbn [insert_by]. unfold R in Hy. by rewrite Hy.
Qed.
End SortFacts.

(** ** Facts about the heading classifier *)

Lemma is_likely_heading_with_eq patterns text font_size is_bold (m : gmap Z string) :
  is_likely_heading_with patterns text font_size is_bold m
  = effective_heading_rule text font_size m.
Proof.
  unfold is_likely_heading_with, effective_heading_rule. cbv zeta.
  rewrite (bool_decide_ext _ _ (elem_of_dom m font_size)).
  destruct (bool_decide (is_Some (m !! font_size))); [|done].
  cbn [andb]. rewrite (Z.leb_antisym 200).
  destruct (200 <? PyStr.len (PyStr.strip text)); [done|].
  destruct (existsb _ _); [done|]. by destruct (_ && _ && _).
Qed.

Lemma is_likely_heading_eq text font_size is_bold (m : gmap Z string) :
  is_likely_heading text font_size is_bold m = effective_heading_rule text font_size m.
Proof. apply is_likely_heading_with_eq. Qed.

Lemma heading_run_mapped m r :
  heading_run m r = true → is_Some (m !! si_font_size r).
Proof.
  unfold heading_run. rewrite is_likely_heading_eq. unfold effective_heading_rule.
  intros [H _]%andb_true_iff. apply bool_decide_eq_true in H.
  by apply elem_of_dom.
Qed.

(** ** Facts about the heuristic loop *)

Section LoopFacts.
Variable m : gmap Z string.

Local Abbreviation step := (heading_step is_likely_heading m).
Local Abbreviation loop := (heading_loop is_likely_heading m).

(** The loop appends the entries of the surviving runs, in their order. *)
Lemma heading_loop_outline l : ∀ out seen,
  (loop l (out, seen)).1 = (out ++ map (entry_of m) (survivors m seen l))%list.
Proof.
  unfold heading_loop.
  induction l as [|r l IH]; intros out seen; cbn [fold_left survivors].
  - by rewrite app_nil_r.
  - unfold heading_step at 2. fold (heading_run m r). cbn [fst snd].
    destruct (heading_run m r); [|apply IH].
    destruct (bool_decide (heading_key r ∈ seen)); [apply IH|].
    destruct (3 <=? PyStr.len (heading_text r)); rewrite IH; [|done].
    by rewrite <- app_assoc.
Qed.









Lemma survivors_sublist l : ∀ seen, survivors m seen l `sublist_of` l.
Proof.
  induction l as [|r l IH]; intros seen; cbn [survivors]; [done|].
  destruct (heading_run m r); [|by apply sublist_cons].
  destruct (bool_decide _); [by apply sublist_cons|].
  destruct (3 <=? _); [by apply sublist_skip|by apply sublist_cons].
Qed.

(** Which runs survive: the first headings of their key, when the key is
    not seen yet and the collapsed text is long enough. *)
Lemma survivors_spec l : ∀ seen r,
  r ∈ survivors m seen l ↔
  ∃ i : nat, l !! i = Some r ∧ heading_run m r = true
    ∧ 3 ≤ PyStr.len (heading_text r) ∧ (heading_key r ∉ seen)
    ∧ ∀ (j : nat) r', (j < i)%nat → l !! j = Some r' →
        heading_run m r' = true → heading_key r' ≠ heading_key r.
Proof.
  induction l as [|a l IH]; intros seen r; cbn [survivors].
  - rewrite elem_of_nil. split; [done|]. by intros (i & H & _).
  - destruct (heading_run m a) eqn:Ha.
    + case_bool_decide as Hin.
      * rewrite IH. split.
        -- intros (i & Hi & Hr & Hl & Hs & Hj). exists (S i).
           repeat split; try done.
           intros [|j] r' Hlt Hj' Hr'; cbn in Hj'.
           ++ injection Hj' as <-. intros E. by rewrite E in Hin.
           ++ apply (Hj j); [lia|done..].
        -- intros ([|i] & Hi & Hr & Hl & Hs & Hj); cbn in Hi.
           ++ injection Hi as <-. done.
           ++ exists i. repeat split; try done.
              intros j r' Hlt Hj' Hr'. apply (Hj (S j)); [lia|done..].
      * assert (r ∈ survivors m (seen ∪ {[heading_key a]}) l →
                ∃ i : nat, (a :: l) !! i = Some r ∧ heading_run m r = true
                  ∧ 3 ≤ PyStr.len (heading_text r) ∧ (heading_key r ∉ seen)
                  ∧ ∀ (j : nat) r', (j < i)%nat → (a :: l) !! j = Some r' →
                      heading_run m r' = true → heading_key r' ≠ heading_key r)
          as Hlater.
        { intros (i & Hi & Hr & Hl & Hs & Hj)%IH.
          apply not_elem_of_union in Hs as [Hs Hne].
          apply not_elem_of_singleton in Hne.
          exists (S i). split_and!; try done.
          intros [|j] r' Hlt Hj' Hr'; cbn in Hj'.
          - by injection Hj' as <-.
          - apply (Hj j); [lia|done..]. }
        split.
        -- destruct (3 <=? PyStr.len (heading_text a)) eqn:E; [|exact Hlater].
           intros [->|H]%elem_of_cons; [|by apply Hlater].
           apply Z.leb_le in E. exists 0%nat. split_and!; try done.
           intros j r' Hlt. lia.
        -- intros ([|i] & Hi & Hr & Hl & Hs & Hj); cbn in Hi.
           ++ injection Hi as <-.
              apply Z.leb_le in Hl. rewrite Hl. apply elem_of_cons. by left.
           ++ assert (r ∈ survivors m (seen ∪ {[heading_key a]}) l) as Hr'.
              { apply IH. exists i. split_and!; try done.
                - apply not_elem_of_union. split; [done|].
                  apply not_elem_of_singleton. intros E.
                  by apply (Hj 0%nat a); [lia|..].
                - intros j r' Hlt Hj' Hr'. apply (Hj (S j)); [lia|done..]. }
              destruct (3 <=? _); [apply elem_of_cons; by right|done].
    + rewrite IH. split.
      * intros (i & Hi & Hr & Hl & Hs & Hj). exists (S i).
        repeat split; try done.
        intros [|j] r' Hlt Hj' Hr'; cbn in Hj'.
        -- injection Hj' as <-. congruence.
        -- apply (Hj j); [lia|done..].
      * intros ([|i] & Hi & Hr & Hl & Hs & Hj); cbn in Hi.
        -- injection Hi as <-. congruence.
        -- exists i. repeat split; try done.
           intros j r' Hlt Hj' Hr'. apply (Hj (S j)); [lia|done..].
Qed.

Lemma survivors_fresh l seen r :
  r ∈ survivors m seen l → heading_key r ∉ seen.
Proof. rewrite survivors_spec. by intros (_ & _ & _ & _ & H & _). Qed.

(** No two surviving runs share a key. *)
Lemma survivors_NoDup l : ∀ seen,
  NoDup (map heading_key (survivors m seen l)).
Proof.
  induction l as [|a l IH]; intros seen; cbn [survivors]; [constructor|].
  destruct (heading_run m a); [|apply IH].
  case_bool_decide; [apply IH|].
  destruct (3 <=? _); [|apply IH].
  cbn [map]. constructor; [|apply IH].
  intros Hin. apply list_elem_of_In, in_map_iff in Hin as (r & Hk & Hr).
  apply list_elem_of_In, survivors_fresh in Hr. rewrite Hk in Hr. set_solver.
Qed.
End LoopFacts.

Lemma Zleb_total (a b : Z) : (a <=? b) = true ∨ (b <=? a) = true.
Proof. rewrite !Z.leb_le. lia. Qed.

Lemma Zleb_trans (a b c : Z) : (a <=? b) = true → (b <=? c) = true → (a <=? c) = true.
Proof. rewrite !Z.leb_le. lia. Qed.

(** The outline of the fallback: the entries of the surviving runs, sorted. *)
Lemma heuristic_outline_survivors spans_data :
  heuristic_outline detect_heading_levels is_likely_heading spans_data
  = sort_by oe_page Z.leb
      (map (entry_of (detect_heading_levels spans_data))
         (survivors (detect_heading_levels spans_data) ∅ spans_data)).
Proof. unfold heuristic_outline. by rewrite heading_loop_outline. Qed.

Lemma elem_of_heuristic_outline spans_data e :
  e ∈ heuristic_outline detect_heading_levels is_likely_heading spans_data ↔
  ∃ r, e = entry_of (detect_heading_levels spans_data) r
       ∧ r ∈ survivors (detect_heading_levels spans_data) ∅ spans_data.
Proof.
  rewrite heuristic_outline_survivors, sort_by_perm, list_elem_of_In, in_map_iff.
  setoid_rewrite list_elem_of_In.
  split; intros (r & Hr & Hin); exists r; by split.
Qed.

(** The loop never reads the vertical position. *)
Lemma same_but_y_detect l l' :
  Forall2 same_but_y l l' → detect_heading_levels l = detect_heading_levels l'.
Proof.
  intros H. unfold detect_heading_levels, collect_font_sizes.
  replace (map si_font_size l') with (map si_font_size l); [done|].
  induction H as [|a b l l' (_ & Hs & _) _ IH]; [done|]. cbn. by rewrite Hs, IH.
Qed.

Lemma same_but_y_loop m l l' :
  Forall2 same_but_y l l' →
  ∀ st, heading_loop is_likely_heading m l st = heading_loop is_likely_heading m l' st.
Proof.
  unfold heading_loop.
  induction 1 as [|a b l l' (Ht & Hs & _ & Hb & Hp) _ IH]; intros st; [done|].
  cbn [fold_left]. rewrite <- IH. f_equal.
  unfold heading_step, heading_key, heading_text. by rewrite Ht, Hs, Hb, Hp.
Qed.

(** The page scan yields runs in page order. *)
Lemma page_spans_page page_num blocks r :
  r ∈ page_spans page_num blocks → si_page r = page_num + 1.
Proof.
  unfold page_spans. rewrite list_elem_of_In, in_flat_map.
  intros (b & _ & Hr). destruct (negb _); [done|].
  apply in_flat_map in Hr as (ln & _ & Hr).
  apply in_flat_map in Hr as (sp & _ & Hr).
  unfold span_infos in Hr. destruct (PyStr.is_empty _); [done|].
  destruct Hr as [<-|[]]. done.
Qed.

Lemma collect_spans_pages pages : ∀ page_num spans_data,
  collect_spans page_num pages = Ok spans_data →
  StronglySorted (λ a b, si_page a ≤ si_page b) spans_data
  ∧ Forall (λ r, page_num + 1 ≤ si_page r) spans_data.
Proof.
  induction pages as [|[blocks|e] pages IH]; intros page_num spans_data;
    cbn [collect_spans]; [intros [= <-]; by split; constructor| |done].
  destruct (collect_spans (page_num + 1) pages) as [rest|] eqn:E; [|done].
  intros [= <-]. destruct (IH _ _ E) as [Hs Hge].
  assert (Forall (λ r, si_page r = page_num + 1) (page_spans page_num blocks)) as Hp.
  { apply Forall_forall. intros r Hr.
    by apply (page_spans_page page_num blocks). }
  split.
  - apply StronglySorted_app_2; [| |done].
    + intros a b Ha Hb.
      rewrite Forall_forall in Hp. rewrite Forall_forall in Hge.
      apply Hp in Ha. apply Hge in Hb. lia.
    + clear -Hp. induction Hp as [|r l Hr Hl IH]; constructor; [done|].
      eapply Forall_impl; [exact Hl|]. cbn. lia.
  - apply Forall_app. split.
    + eapply Forall_impl; [exact Hp|]. cbn. lia.
    + eapply Forall_impl; [exact Hge|]. cbn. lia.
Qed.

Lemma sublist_sorted_pages (kept l : list span_info) m :
  kept `sublist_of` l →
  StronglySorted (λ a b, si_page a ≤ si_page b) l →
  StronglySorted (λ a b, (oe_page a <=? oe_page b) = true) (map (entry_of m) kept).
Proof.
  induction 1 as [|x k l Hsub IH|x k l Hsub IH]; intros Hs.
  - constructor.
  - apply StronglySorted_inv in Hs as [Hs Hx]. cbn [map].
    constructor; [by apply IH|].
    apply Forall_forall. intros e (r & <- & Hr)%list_elem_of_In%in_map_iff.
    apply Z.leb_le. cbn. rewrite Forall_forall in Hx. apply Hx.
    eapply elem_of_sublist; [|exact Hsub]. by apply list_elem_of_In.
  - apply StronglySorted_inv in Hs as [Hs _]. by apply IH.
Qed.

(** ** The explicit tree takes precedence *)

(** C1.  When the explicit structural tree of a document is not empty, the
    outline is the tree mapped entry by entry, in order, to
    [level = "H" + str(min(depth, 6))], [text = label.strip()], [page = page],
    with nothing dropped and nothing merged; this holds whatever the
    classifier components are and whatever the pages hold, so neither the
    page scan nor the heuristic path takes part. *)
Theorem C1_explicit_tree_precedence
    (detect : list span_info → gmap Z string)
    (classify : string → Z → bool → gmap Z string → bool)
    (doc : document) (toc : list toc_item) :
  doc_get_toc doc = Ok toc → toc ≠ [] →
  outline_with detect classify doc
  = Ok (map (λ item : toc_item,
               {| oe_level := "H" +:+ PyStr.str_of_int (Z.min item.1.1 6);
                  oe_text := PyStr.strip item.1.2;
                  oe_page := item.2 |}) toc)
  ∧ outline_of_document doc = outline_with detect classify doc.
Proof.
  intros Htoc Hne. unfold outline_of_document, outline_with. rewrite Htoc.
  destruct toc as [|item items]; [done|]. split; [|done].
  f_equal. apply map_ext. by intros [[level title] page_num].
Qed.

Lemma C1_explicit_tree_precedence_witness :
  outline_with (λ _, ∅) (λ _ _ _ _, true) doc_with_bookmarks
  = Ok [ {| oe_level := "H1"; oe_text := "Intro"; oe_page := 1 |};
         {| oe_level := "H6"; oe_text := "Deep"; oe_page := 4 |};
         {| oe_level := "H1"; oe_text := "Intro"; oe_page := 1 |} ]
  ∧ outline_of_document doc_with_bookmarks = outline_with (λ _, ∅) (λ _ _ _ _, true) doc_with_bookmarks.
Proof.
  apply (C1_explicit_tree_precedence (λ _, ∅) (λ _ _ _ _, true) doc_with_bookmarks
           [(1, "  Intro ", 1); (9, "Deep", 4); (1, "  Intro ", 1)]).
  - reflexivity.
  - discriminate.
Defined.

(** ** The heading classifier *)

(** C2.  The heading classifier answers true exactly when the font size of
    the run is a key of the level map and the trimmed text has at most 200
    characters.  It agrees with the effective rule of the specification; the
    answer is the same with any other list of patterns and any other boldness,
    so the pattern rules and the bold-and-length rule never change it; an
    unmapped size is never a heading and a trimmed text of more than 200
    characters is never one. *)
Theorem C2_heading_classifier_effective
    (text : string) (font_size : Z) (is_bold : bool) (level_mapping : gmap Z string) :
  (is_likely_heading text font_size is_bold level_mapping = true
   ↔ font_size ∈ dom level_mapping ∧ PyStr.len (PyStr.strip text) ≤ 200)
  ∧ is_likely_heading text font_size is_bold level_mapping
    = effective_heading_rule text font_size level_mapping
  ∧ (∀ patterns bold',
       is_likely_heading_with patterns text font_size bold' level_mapping
       = is_likely_heading text font_size is_bold level_mapping)
  ∧ (font_size ∉ dom level_mapping →
     is_likely_heading text font_size is_bold level_mapping = false)
  ∧ (200 < PyStr.len (PyStr.strip text) →
     is_likely_heading text font_size is_bold level_mapping = false).
Proof.
  rewrite !is_likely_heading_eq.
  assert (∀ patterns bold',
            is_likely_heading_with patterns text font_size bold' level_mapping
            = effective_heading_rule text font_size level_mapping) as Hany
    by (intros; apply is_likely_heading_with_eq).
  unfold effective_heading_rule in *.
  rewrite andb_true_iff, bool_decide_eq_true, Z.leb_le.
  split_and!; try done.
  - intros H. by rewrite bool_decide_eq_false_2.
  - intros H. apply Z.leb_gt in H. rewrite H. apply andb_false_r.
Qed.

(** ** Deduplication on the heuristic path *)

(** What the loop does about duplicates.  The deduplication key of the
    heuristic path is (lowercased trimmed text, page), taken before
    whitespace is collapsed.
    The outline is the sorted list of the entries of the kept runs; the kept
    runs are a subsequence of the scanned runs, no two of them share a key,
    and a run is kept exactly when it is a heading with a collapsed text of at
    least 3 characters and no earlier heading has its key.  In particular a
    heading whose lowercased trimmed text occurred before only on other pages
    has its entry in the outline. *)
Lemma dedup_on_trimmed_key (spans_data : list span_info) :
  let m := detect_heading_levels spans_data in
  let outline := heuristic_outline detect_heading_levels is_likely_heading spans_data in
  ∃ kept : list span_info,
    outline = sort_by oe_page Z.leb (map (entry_of m) kept)
    ∧ kept `sublist_of` spans_data
    ∧ NoDup (map heading_key kept)
    ∧ (∀ r, r ∈ kept ↔
         ∃ i : nat, spans_data !! i = Some r ∧ heading_run m r = true
           ∧ 3 ≤ PyStr.len (heading_text r)
           ∧ ∀ (j : nat) r', (j < i)%nat → spans_data !! j = Some r' →
               heading_run m r' = true → heading_key r' ≠ heading_key r)
    ∧ (∀ (i : nat) r, spans_data !! i = Some r → heading_run m r = true →
         3 ≤ PyStr.len (heading_text r) →
         (∀ (j : nat) r', (j < i)%nat → spans_data !! j = Some r' →
            heading_run m r' = true →
            PyStr.lower (PyStr.strip (si_text r')) = PyStr.lower (PyStr.strip (si_text r)) →
            si_page r' ≠ si_page r) →
         entry_of m r ∈ outline).
Proof.
  intros m outline. exists (survivors m ∅ spans_data).
  assert (∀ r, r ∈ survivors m ∅ spans_data ↔
            ∃ i : nat, spans_data !! i = Some r ∧ heading_run m r = true
              ∧ 3 ≤ PyStr.len (heading_text r)
              ∧ ∀ (j : nat) r', (j < i)%nat → spans_data !! j = Some r' →
                  heading_run m r' = true → heading_key r' ≠ heading_key r) as Hspec.
  { intros r. rewrite survivors_spec. split.
    - intros (i & ? & ? & ? & _ & ?). by exists i.
    - intros (i & ? & ? & ? & ?). exists i. split_and!; try done; set_solver. }
  split_and!.
  - apply heuristic_outline_survivors.
  - apply survivors_sublist.
  - apply survivors_NoDup.
  - exact Hspec.
  - intros i r Hi Hr Hl Hj. apply elem_of_heuristic_outline. exists r.
    split; [done|]. apply Hspec. exists i. split_and!; try done.
    intros j r' Hlt Hj' Hr' [= Ht Hp]. by apply (Hj j r').
Qed.

(** C3.  The loop is meant to keep duplicate headings out of the outline
    (its comments say so) and the outline holds the texts with their
    whitespace collapsed, but the key is taken from the trimmed text before
    whitespace is collapsed.  On a page with the two runs ["A  B"] and
    ["A B"], which have the same normalized text and the same page, the keys
    differ, both runs are kept, and the outline of the document holds the
    same entry twice. *)
Theorem C3_same_entry_twice :
  heading_text (run_on_page_1 "A  B") = heading_text (run_on_page_1 "A B")
  ∧ si_page (run_on_page_1 "A  B") = si_page (run_on_page_1 "A B")
  ∧ heading_key (run_on_page_1 "A  B") ≠ heading_key (run_on_page_1 "A B")
  ∧ heuristic_outline detect_heading_levels is_likely_heading
      [run_on_page_1 "A  B"; run_on_page_1 "A B"]
    = [ {| oe_level := "H1"; oe_text := "A B"; oe_page := 1 |};
        {| oe_level := "H1"; oe_text := "A B"; oe_page := 1 |} ]
  ∧ collect_spans 0 (doc_pages doc_double_space)
    = Ok [run_on_page_1 "A  B"; run_on_page_1 "A B"]
  ∧ outline_of_document doc_double_space
    = Ok [ {| oe_level := "H1"; oe_text := "A B"; oe_page := 1 |};
           {| oe_level := "H1"; oe_text := "A B"; oe_page := 1 |} ].
Proof. split_and!; try (vm_compute; reflexivity). discriminate. Qed.



(** ** Order of the heuristic outline *)

Lemma filter_entry_page m p (l : list span_info) :
  List.filter (λ e, oe_page e =? p) (map (entry_of m) l)
  = map (entry_of m) (List.filter (λ r, si_page r =? p) l).
Proof.
  induction l as [|r l IH]; [done|]. cbn [map List.filter]. rewrite IH.
  change (oe_page (entry_of m r)) with (si_page r). by destruct (si_page r =? p).
Qed.

Lemma sorted_leb_le (l : list outline_entry) :
  StronglySorted (λ a b, (oe_page a <=? oe_page b) = true) l →
  StronglySorted (λ a b, oe_page a ≤ oe_page b) l.
Proof.
  induction 1 as [|e l Hs IH He]; constructor; [done|].
  eapply Forall_impl; [exact He|]. intros b. apply Z.leb_le.
Qed.

(** C6.  On the heuristic path the outline is the stable sort by page of the
    entries in scan order: pages never decrease along it, for each page the
    entries of that page are those of the kept runs of that page in the order
    in which the scan met them, and when the runs come in page order (as the
    page scan of a document delivers them) the outline is the scan order
    itself.  Vertical positions play no part: runs that differ only in
    vertical position give the same outline. *)
Theorem C6_stable_sort_by_page_only (spans_data : list span_info) :
  let m := detect_heading_levels spans_data in
  let outline := heuristic_outline detect_heading_levels is_likely_heading spans_data in
  StronglySorted (λ a b, oe_page a ≤ oe_page b) outline
  ∧ (∃ kept : list span_info,
       kept `sublist_of` spans_data
       ∧ Permutation outline (map (entry_of m) kept)
       ∧ (∀ p, List.filter (λ e, oe_page e =? p) outline
               = map (entry_of m) (List.filter (λ r, si_page r =? p) kept))
       ∧ (StronglySorted (λ a b, si_page a ≤ si_page b) spans_data →
          outline = map (entry_of m) kept))
  ∧ (∀ spans_data', Forall2 same_but_y spans_data spans_data' →
       heuristic_outline detect_heading_levels is_likely_heading spans_data' = outline)
  ∧ (∀ doc, doc_get_toc doc = Ok [] →
       collect_spans 0 (doc_pages doc) = Ok spans_data →
       StronglySorted (λ a b, si_page a ≤ si_page b) spans_data
       ∧ outline_of_document doc = Ok outline).
Proof.
  intros m outline.
  assert (outline = sort_by oe_page Z.leb
                      (map (entry_of m) (survivors m ∅ spans_data))) as Hout
    by apply heuristic_outline_survivors.
  split_and!.
  - rewrite Hout. apply sorted_leb_le.
    apply (sort_by_sorted oe_page Z.leb Zleb_total Zleb_trans).
  - exists (survivors m ∅ spans_data). rewrite Hout. split_and!.
    + apply survivors_sublist.
    + apply sort_by_perm.
    + intros p. rewrite <- filter_entry_page. apply sort_by_stable.
      intros a b Ha%Z.eqb_eq Hb%Z.eqb_eq. apply Z.leb_le. lia.
    + intros Hs. apply sort_by_sorted_id.
      eapply sublist_sorted_pages; [apply survivors_sublist|exact Hs].
  - intros spans_data' Hy. unfold outline, heuristic_outline.
    by rewrite <- (same_but_y_detect _ _ Hy), <- (same_but_y_loop _ _ _ Hy).
  - intros doc Htoc Hspans. split.
    + by destruct (collect_spans_pages _ _ _ Hspans).
    + unfold outline_of_document, outline_with. by rewrite Htoc, Hspans.
Qed.

(** ** The level map *)

Lemma level_label_str (i : nat) :
  (i < 6)%nat → level_label i = "H" +:+ PyStr.str_of_int (Z.of_nat i + 1).
Proof. do 6 (destruct i as [|i]; [reflexivity|]). lia. Qed.

Lemma assign_levels_other sizes : ∀ (i0 : nat) (m0 : gmap Z string) k,
  k ∉ sizes → assign_levels i0 sizes m0 !! k = m0 !! k.
Proof.
  induction sizes as [|s sizes IH]; intros i0 m0 k Hk; [done|].
  apply not_elem_of_cons in Hk as [Hne Hk]. cbn [assign_levels].
  rewrite IH by done. by rewrite lookup_insert_ne.
Qed.

Lemma assign_levels_lookup sizes : ∀ (i0 j : nat) (m0 : gmap Z string) k,
  NoDup sizes → sizes !! j = Some k →
  assign_levels i0 sizes m0 !! k = Some (level_label (i0 + j)).
Proof.
  induction sizes as [|s sizes IH]; intros i0 j m0 k Hnd Hj; [done|].
  apply NoDup_cons in Hnd as [Hs Hnd]. cbn [assign_levels].
  destruct j as [|j]; cbn in Hj.
  - injection Hj as ->. rewrite assign_levels_other by done.
    rewrite lookup_insert_eq. by rewrite Nat.add_0_r.
  - rewrite (IH (S i0) j) by done. do 2 f_equal. lia.
Qed.

Lemma assign_levels_dom sizes : ∀ (i0 : nat) (m0 : gmap Z string),
  dom (assign_levels i0 sizes m0) = list_to_set sizes ∪ dom m0.
Proof.
  induction sizes as [|s sizes IH]; intros i0 m0; cbn [assign_levels].
  - by rewrite list_to_set_nil, union_empty_l_L.
  - rewrite IH, dom_insert_L, list_to_set_cons.
    by rewrite (comm_L (∪) {[s]} (list_to_set sizes)), <- (assoc_L (∪)).
Qed.

Lemma unique_sizes_perm fs :
  Permutation (unique_sizes_of fs) (elements (list_to_set fs : gset Z)).
Proof. apply sort_by_perm. Qed.

Lemma unique_sizes_NoDup fs : NoDup (unique_sizes_of fs).
Proof. rewrite unique_sizes_perm. apply NoDup_elements. Qed.

Lemma unique_sizes_elem fs x :
  x ∈ unique_sizes_of fs ↔ x ∈ (list_to_set fs : gset Z).
Proof. rewrite unique_sizes_perm. apply elem_of_elements. Qed.

Lemma unique_sizes_length fs :
  length (unique_sizes_of fs) = size (list_to_set fs : gset Z).
Proof. unfold size, set_size. cbn. by rewrite unique_sizes_perm. Qed.

(** [unique_sizes] is strictly descending. *)
Lemma unique_sizes_sorted fs : StronglySorted (λ a b, b < a) (unique_sizes_of fs).
Proof.
  pose proof (unique_sizes_NoDup fs) as Hnd.
  assert (StronglySorted (λ a b : Z, (id b <=? id a) = true) (unique_sizes_of fs)) as Hs.
  { apply (sort_by_sorted id (λ a b, b <=? a)).
    - intros a b. rewrite !Z.leb_le. lia.
    - intros a b c. rewrite !Z.leb_le. lia. }
  induction Hs as [|x l Hs IH Hx]; constructor.
  - apply IH. by apply NoDup_cons in Hnd as [_ ?].
  - apply NoDup_cons in Hnd as [Hx' _].
    rewrite Forall_forall in Hx. apply Forall_forall. intros y Hy.
    specialize (Hx y Hy). apply Z.leb_le in Hx. unfold id in Hx.
    assert (y ≠ x) by (intros ->; done). lia.
Qed.

(** In a strictly descending list, the index of an element is the number of
    elements that exceed it. *)
Lemma rank_in_descending (u : list Z) : ∀ (i : nat) k,
  StronglySorted (λ a b, b < a) u → u !! i = Some k →
  length (filter (λ d, k < d) u) = i.
Proof.
  induction u as [|x u IH]; intros i k Hs Hi; [done|].
  apply StronglySorted_inv in Hs as [Hs Hx]. destruct i as [|i]; cbn in Hi.
  - injection Hi as ->. rewrite filter_cons_False by lia.
    rewrite Forall_forall in Hx.
    assert (filter (λ d, k < d) u = []) as ->; [|done].
    apply elem_of_nil_inv. intros y [Hy Hin]%list_elem_of_filter.
    specialize (Hx y Hin). lia.
  - assert (k < x). { rewrite Forall_forall in Hx. apply Hx. by eapply list_elem_of_lookup_2. }
    rewrite filter_cons_True by done. cbn. f_equal. by apply IH.
Qed.

Lemma larger_in_list (D : gset Z) (u : list Z) k :
  NoDup u → (∀ x, x ∈ u ↔ x ∈ D) →
  larger_in D k = length (filter (λ d, k < d) u).
Proof.
  intros Hnd Hu. unfold larger_in.
  assert (filter (λ d, k < d) D = list_to_set (filter (λ d, k < d) u)) as ->.
  { apply set_eq. intros x.
    rewrite elem_of_filter, elem_of_list_to_set, list_elem_of_filter, Hu. done. }
  apply size_list_to_set. by apply NoDup_filter.
Qed.

Lemma detect_heading_levels_eq spans_data :
  detect_heading_levels spans_data
  = assign_levels 0 (take 6 (unique_sizes_of (collect_font_sizes spans_data))) ∅.
Proof.
  unfold detect_heading_levels.
  destruct (collect_font_sizes spans_data) eqn:E; [|done].
  unfold unique_sizes_of. cbn. by rewrite elements_empty.
Qed.

Lemma ranked_sizes_spec spans_data k :
  k ∈ ranked_sizes spans_data ↔ k ≠ 0 ∧ k ∈ distinct_sizes spans_data.
Proof.
  unfold ranked_sizes, distinct_sizes, collect_font_sizes.
  rewrite !elem_of_list_to_set, !list_elem_of_In, filter_In, negb_true_iff, Z.eqb_neq.
  tauto.
Qed.

(** C4, as the code has it.  Let [D] be the set of distinct sizes of the runs
    that are not zero (a size of zero fails the truth test and is not
    collected).  The level map has [min (size D) 6] entries; its keys are the
    sizes of [D] exceeded by fewer than 6 sizes of [D], that is the
    [min (size D) 6] largest; the key exceeded by [n] sizes is mapped to
    ["H" + str(n + 1)], so a strictly larger key has a strictly smaller level
    number; and the map is empty when [D] is, in particular when there is no
    run. *)
Theorem C4_level_map_of_ranked_sizes (spans_data : list span_info) :
  let D := ranked_sizes spans_data in
  let m := detect_heading_levels spans_data in
  size m = Nat.min (size D) 6
  ∧ (∀ k, k ∈ dom m ↔ k ∈ D ∧ (larger_in D k < 6)%nat)
  ∧ (∀ k, k ∈ dom m →
       m !! k = Some ("H" +:+ PyStr.str_of_int (Z.of_nat (larger_in D k) + 1)))
  ∧ (∀ k1 k2, k1 ∈ dom m → k2 ∈ dom m → k2 < k1 →
       (larger_in D k1 < larger_in D k2)%nat)
  ∧ (∀ k, k ∈ D ↔ k ≠ 0 ∧ k ∈ distinct_sizes spans_data)
  ∧ (D = ∅ → m = ∅)
  ∧ (spans_data = [] → m = ∅).
Proof.
  intros D m.
  set (u := unique_sizes_of (collect_font_sizes spans_data)).
  assert (m = assign_levels 0 (take 6 u) ∅) as Hm by apply detect_heading_levels_eq.
  pose proof (unique_sizes_NoDup (collect_font_sizes spans_data)) as Hnd. fold u in Hnd.
  pose proof (unique_sizes_sorted (collect_font_sizes spans_data)) as Hs. fold u in Hs.
  assert (∀ x, x ∈ u ↔ x ∈ D) as Hu by (intros x; apply unique_sizes_elem).
  assert (length u = size D) as Hlen by apply unique_sizes_length.
  assert (NoDup (take 6 u)) as Hnd6.
  { eapply sublist_NoDup; [exact Hnd|]. apply sublist_take. }
  assert (∀ k, k ∈ dom m ↔ ∃ i : nat, u !! i = Some k ∧ (i < 6)%nat) as Hdom.
  { intros k. rewrite Hm, assign_levels_dom, dom_empty_L, union_empty_r_L.
    by rewrite elem_of_list_to_set, elem_of_take. }
  assert (∀ (i : nat) k, u !! i = Some k → larger_in D k = i) as Hrank.
  { intros i k Hi. rewrite (larger_in_list D u k Hnd Hu). by apply rank_in_descending. }
  split_and!.
  - rewrite <- size_dom, Hm, assign_levels_dom, dom_empty_L, union_empty_r_L.
    rewrite size_list_to_set by done. rewrite length_take, Hlen. lia.
  - intros k. rewrite Hdom. split.
    + intros (i & Hi & Hlt). rewrite (Hrank i k Hi). split; [|done].
      apply Hu. by eapply list_elem_of_lookup_2.
    + intros [(i & Hi)%Hu%list_elem_of_lookup_1 Hlt]. exists i.
      by rewrite (Hrank i k Hi) in Hlt.
  - intros k (i & Hi & Hlt)%Hdom. rewrite (Hrank i k Hi), Hm.
    rewrite (assign_levels_lookup (take 6 u) 0 i ∅ k Hnd6).
    + by rewrite level_label_str.
    + by apply lookup_take_Some.
  - intros k1 k2 (i1 & Hi1 & _)%Hdom (i2 & Hi2 & _)%Hdom Hlt.
    unfold larger_in. apply subset_size. split.
    + intros x. rewrite !elem_of_filter. intros [??]. split; [lia|done].
    + intros Hsub. assert (k1 ∈ filter (λ d, k1 < d) D) as [? _]%elem_of_filter; [|lia].
      apply Hsub. apply elem_of_filter. split; [done|].
      apply Hu. by eapply list_elem_of_lookup_2.
  - apply ranked_sizes_spec.
  - intros HD. apply dom_empty_iff_L. apply set_eq. intros k.
    rewrite Hdom. split; [|set_solver].
    intros (i & Hi%list_elem_of_lookup_2%Hu & _). by rewrite HD in Hi.
  - intros ->. done.
Qed.

(** C4 as stated fails: with the sizes 12 and 0 observed there are two
    distinct values, and the map has one entry. *)
Lemma C4_counterexample :
  size (distinct_sizes [run_of_size 12; run_of_size 0]) = 2%nat
  ∧ size (detect_heading_levels [run_of_size 12; run_of_size 0]) = 1%nat
  ∧ size (detect_heading_levels [run_of_size 12; run_of_size 0])
    ≠ Nat.min (size (distinct_sizes [run_of_size 12; run_of_size 0])) 6.
Proof. split_and!; vm_compute; [reflexivity..|discriminate]. Qed.

(** ** More facts about strings *)

Lemma string_app_cons c (a b : string) : String c a +:+ b = String c (a +:+ b).
Proof. reflexivity. Qed.

Lemma string_app_nil_l (a : string) : EmptyString +:+ a = a.
Proof. reflexivity. Qed.

Lemma string_app_assoc (a b c : string) : (a +:+ b) +:+ c = a +:+ (b +:+ c).
Proof.
  induction a as [|x a IH]; [done|]. by rewrite !string_app_cons, IH.
Qed.

Lemma string_app_nil_r (a : string) : a +:+ EmptyString = a.
Proof. induction a as [|x a IH]; [done|]. by rewrite string_app_cons, IH. Qed.

Lemma rstrip_cons_nonspace c s :
  PyStr.is_space c = false → PyStr.rstrip (String c s) = String c (PyStr.rstrip s).
Proof. intros H. cbn. by rewrite H. Qed.

Lemma rstrip_idem s : PyStr.rstrip (PyStr.rstrip s) = PyStr.rstrip s.
Proof.
  induction s as [|c s IH]; [done|]. cbn [PyStr.rstrip].
  destruct (PyStr.is_space c && PyStr.is_empty (PyStr.rstrip s)) eqn:E; [done|].
  cbn [PyStr.rstrip]. by rewrite IH, E.
Qed.

Lemma lstrip_head s :
  PyStr.lstrip s = EmptyString
  ∨ ∃ c s', PyStr.lstrip s = String c s' ∧ PyStr.is_space c = false.
Proof.
  induction s as [|c s IH]; [by left|]. cbn.
  destruct (PyStr.is_space c) eqn:E; [exact IH|]. right. by exists c, s.
Qed.

Lemma strip_head s :
  PyStr.strip s = EmptyString
  ∨ ∃ c s', PyStr.strip s = String c s' ∧ PyStr.is_space c = false.
Proof.
  unfold PyStr.strip. destruct (lstrip_head s) as [->|(c & s' & -> & Hc)]; [by left|].
  right. exists c, (PyStr.rstrip s'). by rewrite rstrip_cons_nonspace.
Qed.

Lemma lstrip_strip s : PyStr.lstrip (PyStr.strip s) = PyStr.strip s.
Proof.
  destruct (strip_head s) as [->|(c & s' & -> & Hc)]; [done|]. cbn. by rewrite Hc.
Qed.

(** Trimming a trimmed text changes nothing. *)
Lemma strip_idem s : PyStr.strip (PyStr.strip s) = PyStr.strip s.
Proof.
  unfold PyStr.strip at 1. rewrite lstrip_strip. unfold PyStr.strip.
  apply rstrip_idem.
Qed.

Lemma rstrip_strip s : PyStr.rstrip (PyStr.strip s) = PyStr.strip s.
Proof. unfold PyStr.strip. apply rstrip_idem. Qed.

Lemma rstrip_app_space a : PyStr.rstrip (a +:+ " ") = PyStr.rstrip a.
Proof.
  induction a as [|c a IH]; [done|].
  rewrite string_app_cons. cbn [PyStr.rstrip]. by rewrite IH.
Qed.

Lemma rstrip_app_nonempty a b :
  PyStr.is_empty (PyStr.rstrip b) = false →
  PyStr.rstrip (a +:+ b) = a +:+ PyStr.rstrip b.
Proof.
  intros Hb. induction a as [|c a IH]; [done|].
  rewrite !string_app_cons. cbn [PyStr.rstrip]. rewrite IH.
  assert (PyStr.is_empty (a +:+ PyStr.rstrip b) = false) as ->.
  { destruct a; [exact Hb|done]. }
  by rewrite andb_false_r.
Qed.

Lemma line_scan_fold spans : ∀ acc : string * Z,
  fold_left
    (λ (acc : string * Z) (sp : span),
       let text := PyStr.strip (span_text sp) in
       if PyStr.is_empty text then acc
       else (acc.1 +:+ text +:+ " ", Z.max acc.2 (span_size sp)))
    spans acc
  = (acc.1 +:+ fold_right (λ t r, t +:+ " " +:+ r) EmptyString (run_texts spans),
     fold_left Z.max (run_sizes spans) acc.2).
Proof.
  unfold run_texts, run_sizes.
  induction spans as [|sp spans IH]; intros [a z]; cbn [fold_left].
  - cbn [map List.filter fold_right fold_left fst snd]. by rewrite string_app_nil_r.
  - rewrite IH. cbn [map List.filter fst snd].
    destruct (PyStr.is_empty (PyStr.strip (span_text sp))); cbn [negb]; [done|].
    cbn [fold_right fold_left map fst snd]. by rewrite !string_app_assoc.
Qed.

Lemma join_space_nonempty t ts :
  PyStr.is_empty t = false → PyStr.is_empty (join_space (t :: ts)) = false.
Proof. destruct t; [done|]. by destruct ts. Qed.

Lemma strip_spaced_texts (ts : list string) :
  Forall (λ t, PyStr.strip t = t ∧ PyStr.is_empty t = false) ts →
  PyStr.strip (fold_right (λ t r, t +:+ " " +:+ r) EmptyString ts) = join_space ts.
Proof.
  intros Hts. destruct Hts as [|t ts [Ht Hne] Hts]; [done|].
  assert (PyStr.lstrip (fold_right (λ t r, t +:+ " " +:+ r) EmptyString (t :: ts))
          = fold_right (λ t r, t +:+ " " +:+ r) EmptyString (t :: ts)) as Hl.
  { cbn [fold_right]. destruct (strip_head t) as [E|(c & s' & E & Hc)];
      rewrite Ht in E; subst t; [done|].
    rewrite string_app_cons. cbn [PyStr.lstrip]. by rewrite Hc. }
  unfold PyStr.strip. rewrite Hl. clear Hl.
  revert t Ht Hne. induction Hts as [|t2 ts [Ht2 Hne2] Hts IH]; intros t Ht Hne.
  - cbn [fold_right join_space]. rewrite <- string_app_assoc, string_app_nil_r.
    rewrite rstrip_app_space. rewrite <- Ht. apply rstrip_strip.
  - change (fold_right (λ t r, t +:+ " " +:+ r) EmptyString (t :: t2 :: ts))
      with (t +:+ " " +:+ fold_right (λ t r, t +:+ " " +:+ r) EmptyString (t2 :: ts)).
    rewrite <- string_app_assoc.
    rewrite rstrip_app_nonempty; rewrite (IH t2 Ht2 Hne2).
    + by rewrite string_app_assoc.
    + by apply join_space_nonempty.
Qed.

Lemma run_texts_trimmed spans :
  Forall (λ t, PyStr.strip t = t ∧ PyStr.is_empty t = false) (run_texts spans).
Proof.
  unfold run_texts. apply Forall_forall. intros t.
  rewrite list_elem_of_In, filter_In, in_map_iff, negb_true_iff.
  intros [(sp & <- & _) Hne]. split; [apply strip_idem|done].
Qed.

(** The candidate of a line, read off its spans. *)
Lemma line_candidates_joined (ln : line) :
  line_candidates ln
  = if 3 <? PyStr.len (cand_text (line_candidate ln)) then [line_candidate ln] else [].
Proof.
  unfold line_candidates, line_scan, line_candidate. rewrite line_scan_fold.
  cbn [fst snd cand_text]. rewrite string_app_nil_l.
  rewrite (strip_spaced_texts _ (run_texts_trimmed _)).
  destruct (3 <? PyStr.len (join_space (run_texts (line_spans ln)))) eqn:E.
  - assert (PyStr.is_empty (join_space (run_texts (line_spans ln))) = false) as ->; [|done].
    apply Z.ltb_lt in E. by destruct (join_space _).
  - by rewrite andb_false_r.
Qed.

(** The candidates of a page are the candidates of the lines of its text
    blocks, in scan order, whose text has more than 3 characters. *)
Lemma title_candidates_lines blocks :
  title_candidates blocks
  = List.filter (λ c, 3 <? PyStr.len (cand_text c))
      (map line_candidate (text_lines blocks)).
Proof.
  unfold title_candidates, text_lines.
  induction blocks as [|b blocks IH]; [done|].
  cbn [flat_map]. rewrite map_app, List.filter_app, IH. f_equal.
  destruct (block_type b =? 0); cbn [negb]; [|done].
  induction (block_lines b) as [|ln lns IHl]; [done|].
  cbn [flat_map map List.filter]. rewrite IHl, line_candidates_joined.
  by destruct (3 <? _).
Qed.

(** ** The title selector *)

Lemma StronglySorted_weaken {A} (R1 R2 : A → A → Prop) (l : list A) :
  (∀ a b, R1 a b → R2 a b) → StronglySorted R1 l → StronglySorted R2 l.
Proof.
  intros HR. induction 1 as [|x l Hs IH Hx]; constructor; [done|].
  eapply Forall_impl; [exact Hx|]. intros b. apply HR.
Qed.

Lemma is_empty_true s : PyStr.is_empty s = true ↔ s = EmptyString.
Proof. by destruct s. Qed.

Lemma tuple_le_total a b : tuple_le a b = true ∨ tuple_le b a = true.
Proof.
  unfold tuple_le.
  rewrite !orb_true_iff, !andb_true_iff, !Z.ltb_lt, !Z.eqb_eq, !Z.leb_le. lia.
Qed.

Lemma tuple_le_trans a b c :
  tuple_le a b = true → tuple_le b c = true → tuple_le a c = true.
Proof.
  unfold tuple_le.
  rewrite !orb_true_iff, !andb_true_iff, !Z.ltb_lt, !Z.eqb_eq, !Z.leb_le. lia.
Qed.

Lemma tuple_le_candidates a b :
  tuple_le (candidate_key a) (candidate_key b) = true ↔
  cand_y_pos a < cand_y_pos b
  ∨ (cand_y_pos a = cand_y_pos b ∧ cand_font_size b ≤ cand_font_size a).
Proof.
  unfold tuple_le, candidate_key. cbn.
  rewrite !orb_true_iff, !andb_true_iff, !Z.ltb_lt, !Z.eqb_eq, !Z.leb_le. lia.
Qed.

(** What [find] finds is the first element that passes the test. *)
Lemma find_first {A} (f : A → bool) (l : list A) :
  match find f l with
  | Some x => ∃ l1 l2, l = (l1 ++ x :: l2)%list
                ∧ Forall (λ y, f y = false) l1 ∧ f x = true
  | None => Forall (λ y, f y = false) l
  end.
Proof.
  induction l as [|a l IH]; cbn; [constructor|].
  destruct (f a) eqn:E.
  - exists [], l. by repeat split.
  - destruct (find f l) as [x|].
    + destruct IH as (l1 & l2 & -> & H1 & Hx). exists (a :: l1), l2.
      repeat split; [|done]. by constructor.
    + by constructor.
Qed.

Lemma title_candidates_long blocks :
  Forall (λ c, 3 < PyStr.len (cand_text c)) (title_candidates blocks).
Proof.
  apply Forall_forall. intros c. unfold title_candidates.
  rewrite list_elem_of_In, in_flat_map. intros (b & _ & Hc).
  destruct (negb _); [done|]. apply in_flat_map in Hc as (ln & _ & Hc).
  unfold line_candidates in Hc.
  destruct (negb _ && (3 <? _)) eqn:E; [|done].
  destruct Hc as [<-|[]]. cbn. apply andb_true_iff in E as [_ E]. by apply Z.ltb_lt.
Qed.

(** C5.  When the metadata title is not empty once trimmed, the title is that
    trimmed text, whatever the pages are.  Otherwise, on a document with no
    page the title is the sentinel, and on a document whose first page is
    read, with [cands] the line candidates of that page: they are, in scan
    order, what the lines of the text blocks of the page offer (the trimmed
    texts of the spans that are not blank joined by single spaces, the
    largest of their sizes, the top of the line), those kept whose text has
    more than 3 characters; the candidates are put in the order (vertical
    position ascending, font size descending), equal keys keeping their scan
    order, and the title is the text of the first candidate of length at
    least 10, else of the first candidate when there is one, else the
    sentinel. *)
Theorem C5_title_selection (doc : document) :
  (∀ t, doc_metadata_title doc = Some t → PyStr.strip t ≠ EmptyString →
     title_of_document doc = Ok (PyStr.strip t))
  ∧ ((∀ t, doc_metadata_title doc = Some t → PyStr.strip t = EmptyString) →
     (doc_pages doc = [] → title_of_document doc = Ok "Untitled Document")
     ∧ (∀ blocks rest, doc_pages doc = Ok blocks :: rest →
          let cands := title_candidates blocks in
          ∃ sorted : list candidate,
            Permutation sorted cands
            ∧ StronglySorted
                (λ a b, cand_y_pos a < cand_y_pos b
                        ∨ (cand_y_pos a = cand_y_pos b
                           ∧ cand_font_size b ≤ cand_font_size a)) sorted
            ∧ (∀ y fs,
                 List.filter (λ c, (cand_y_pos c =? y) && (cand_font_size c =? fs)) sorted
                 = List.filter (λ c, (cand_y_pos c =? y) && (cand_font_size c =? fs)) cands)
            ∧ cands
              = List.filter (λ c, 3 <? PyStr.len (cand_text c))
                  (map line_candidate (text_lines blocks))
            ∧ Forall (λ c, 3 < PyStr.len (cand_text c)) cands
            ∧ ((∃ l1 c l2, sorted = (l1 ++ c :: l2)%list
                  ∧ Forall (λ c', PyStr.len (cand_text c') < 10) l1
                  ∧ 10 ≤ PyStr.len (cand_text c)
                  ∧ title_of_document doc = Ok (cand_text c))
               ∨ (∃ c l, sorted = c :: l
                  ∧ Forall (λ c', PyStr.len (cand_text c') < 10) sorted
                  ∧ title_of_document doc = Ok (cand_text c))
               ∨ (cands = [] ∧ title_of_document doc = Ok "Untitled Document")))).
Proof.
  split.
  - intros t Ht Hne. unfold title_of_document. rewrite Ht.
    change (default EmptyString (Some t)) with t. cbn [truthy].
    assert (PyStr.is_empty (PyStr.strip t) = false) as ->.
    { apply not_true_is_false. by rewrite is_empty_true. }
    destruct t; [done|]. done.
  - intros Hmeta.
    assert (truthy (doc_metadata_title doc)
            && negb (PyStr.is_empty
                       (PyStr.strip (default EmptyString (doc_metadata_title doc))))
            = false) as Hcond.
    { destruct (doc_metadata_title doc) as [t|]; [|done].
      change (default EmptyString (Some t)) with t.
      rewrite (Hmeta t eq_refl). apply andb_false_r. }
    unfold title_of_document. rewrite Hcond. split.
    + by intros ->.
    + intros blocks rest ->. cbv zeta. exists (sorted_candidates blocks).
      split_and!.
      * apply sort_by_perm.
      * eapply StronglySorted_weaken;
          [|apply (sort_by_sorted candidate_key tuple_le tuple_le_total tuple_le_trans)].
        intros a b. apply tuple_le_candidates.
      * intros y fs. apply sort_by_stable.
        intros a b [Ha1 Ha2]%andb_true_iff [Hb1 Hb2]%andb_true_iff.
        apply tuple_le_candidates. lia.
      * apply title_candidates_lines.
      * apply title_candidates_long.
      * pose proof (find_first (λ c, 10 <=? PyStr.len (cand_text c))
                      (sorted_candidates blocks)) as Hfind.
        destruct (find _ (sorted_candidates blocks)) as [c|].
        -- left. destruct Hfind as (l1 & l2 & Heq & H1 & Hc).
           exists l1, c, l2. split_and!; [done| |by apply Z.leb_le|done].
           eapply Forall_impl; [exact H1|]. intros c'. apply Z.leb_gt.
        -- destruct (sorted_candidates blocks) as [|c l] eqn:E.
           ++ right. right. split; [|done].
              apply Permutation_nil. rewrite <- E. apply sort_by_perm.
           ++ right. left. exists c, l. split_and!; [done| |done].
              eapply Forall_impl; [exact Hfind|]. intros c'. apply Z.leb_gt.
Qed.

(** ** The orchestrator *)

Lemma world_eq (w1 w2 : world) :
  w_files w1 = w_files w2 → w_open_fault w1 = w_open_fault w2 →
  w_dump_fault w1 = w_dump_fault w2 →
  w_fsops w1 = w_fsops w2 → w_stdout w1 = w_stdout w2 → w1 = w2.
Proof. destruct w1, w2. cbn. by intros -> -> -> -> ->. Qed.

Lemma apply_op_insert files op :
  apply_op files op = <[op_path op := op_content op]> files.
Proof. by destruct op. Qed.

Lemma output_files_app ops1 ops2 :
  output_files (ops1 ++ ops2) = fold_left apply_op ops2 (output_files ops1).
Proof. unfold output_files. apply fold_left_app. Qed.

Lemma output_files_written ops path d :
  output_files (ops ++ [OpOpenW path; OpDump path d]) !! path = Some (JsonDoc d).
Proof.
  unfold output_files. rewrite fold_left_app. cbn. apply lookup_insert_eq.
Qed.

(** Operations on other paths leave a file as it is. *)
Lemma apply_ops_other ops : ∀ (files : gmap string file_content) path,
  Forall (λ op, op_path op ≠ path) ops →
  fold_left apply_op ops files !! path = files !! path.
Proof.
  induction ops as [|op ops IH]; intros files path Hops; [done|].
  apply Forall_cons in Hops as [Hop Hops]. cbn [fold_left]. rewrite IH by done.
  rewrite apply_op_insert. by rewrite lookup_insert_ne.
Qed.

(** Operations on one path leave the file with what the last of them
    leaves. *)
Lemma apply_ops_same_path path ops : ∀ files : gmap string file_content,
  Forall (λ op, op_path op = path) ops →
  fold_left apply_op ops files
  = match last (map op_content ops) with
    | Some c => <[path := c]> files
    | None => files
    end.
Proof.
  induction ops as [|op ops IH]; intros files Hops; [done|].
  apply Forall_cons in Hops as [Hop Hops]. cbn [fold_left map].
  rewrite IH by done. rewrite apply_op_insert, Hop.
  rewrite last_cons. destruct (last (map op_content ops)); [|done].
  apply insert_insert_eq.
Qed.

Lemma apply_ops_twice path ops (files : gmap string file_content) :
  Forall (λ op, op_path op = path) ops →
  fold_left apply_op ops (fold_left apply_op ops files)
  = fold_left apply_op ops files.
Proof.
  intros Hops. rewrite !(apply_ops_same_path path) by done.
  destruct (last (map op_content ops)); [|done]. apply insert_insert_eq.
Qed.

(** Extraction reads the files of the world and changes nothing. *)
Lemma extract_title_from_pdf_eq pdf_path w :
  extract_title_from_pdf pdf_path w
  = (match w_files w !! pdf_path with
     | Some (Ok doc) => title_of_document doc
     | Some (Raise e) => Raise e
     | None => Raise ("no such file: '" +:+ pdf_path +:+ "'")
     end, w).
Proof.
  unfold extract_title_from_pdf, bind, fitz_open, lift.
  by destruct (w_files w !! pdf_path) as [[doc|e]|].
Qed.

Lemma extract_outline_from_pdf_eq pdf_path w :
  extract_outline_from_pdf pdf_path w
  = (match w_files w !! pdf_path with
     | Some (Ok doc) => outline_of_document doc
     | Some (Raise e) => Raise e
     | None => Raise ("no such file: '" +:+ pdf_path +:+ "'")
     end, w).
Proof.
  unfold extract_outline_from_pdf, bind, fitz_open, lift.
  by destruct (w_files w !! pdf_path) as [[doc|e]|].
Qed.

(** The result pair of a path is what the two extractions give, the title
    first. *)
Lemma document_result_extract pdf_path w :
  document_result (w_files w) pdf_path
  = match (extract_title_from_pdf pdf_path w).1,
          (extract_outline_from_pdf pdf_path w).1 with
    | Ok title, Ok outline => Ok {| od_title := title; od_outline := outline |}
    | Ok _, Raise e | Raise e, _ => Raise e
    end.
Proof.
  rewrite extract_title_from_pdf_eq, extract_outline_from_pdf_eq. cbn [fst].
  unfold document_result.
  destruct (w_files w !! pdf_path) as [[doc|e]|]; [|done..].
  destruct (title_of_document doc); [|done]. by destruct (outline_of_document doc).
Qed.

Lemma write_json_eq path d w :
  write_json path d w
  = (match write_error w path d with Some e => Raise e | None => Ok tt end,
     log (write_ops w path d) [] w).
Proof.
  unfold write_json, bind, open_w, json_dump, write_error, write_ops.
  destruct (w_open_fault w path) as [e|] eqn:Eo.
  - f_equal. apply world_eq; cbn; by rewrite ?app_nil_r.
  - cbn [w_dump_fault log_ops].
    destruct (w_dump_fault w path d) as [e|]; f_equal; apply world_eq; cbn;
      by rewrite ?app_nil_r, <- ?app_assoc.
Qed.

Lemma bind_eq {A B} (m : M A) (k : A → M B) w :
  bind m k w
  = match (m w).1 with
    | Ok a => k a (m w).2
    | Raise e => (Raise e, (m w).2)
    end.
Proof. unfold bind. by destruct (m w) as [[a|e] w']. Qed.

Lemma try_block_eq pdf_path output_path w :
  (let* title := extract_title_from_pdf pdf_path in
   let* outline := extract_outline_from_pdf pdf_path in
   write_json output_path {| od_title := title; od_outline := outline |} ;;;
   ret true) w
  = (match try_error w pdf_path output_path with
     | Some e => Raise e
     | None => Ok true
     end,
     log (try_ops w pdf_path output_path) [] w).
Proof.
  unfold try_error, try_ops. rewrite document_result_extract, bind_eq.
  assert ((extract_title_from_pdf pdf_path w).2 = w) as ->
    by by rewrite extract_title_from_pdf_eq.
  destruct (extract_title_from_pdf pdf_path w).1 as [title|e].
  - rewrite bind_eq.
    assert ((extract_outline_from_pdf pdf_path w).2 = w) as ->
      by by rewrite extract_outline_from_pdf_eq.
    destruct (extract_outline_from_pdf pdf_path w).1 as [outline|e].
    + rewrite bind_eq, write_json_eq. cbn [fst snd].
      by destruct (write_error w output_path _).
    + f_equal. apply world_eq; cbn; by rewrite ?app_nil_r.
  - f_equal. apply world_eq; cbn; by rewrite ?app_nil_r.
Qed.

(** One run of [process_single_pdf], whatever the world. *)
Lemma process_single_pdf_run pdf_path output_path w :
  process_single_pdf pdf_path output_path w
  = (single_answer w pdf_path output_path,
     log (single_ops w pdf_path output_path) (single_lines w pdf_path output_path) w).
Proof.
  unfold process_single_pdf, try_except. rewrite try_block_eq.
  unfold single_answer, single_ops, single_lines.
  destruct (try_error w pdf_path output_path) as [e|].
  - unfold bind at 1. cbn [print]. unfold bind at 1. rewrite write_json_eq.
    change (write_error (log_line _ (log _ _ w))) with (write_error w).
    change (write_ops (log_line _ (log _ _ w))) with (write_ops w).
    destruct (write_error w output_path error_output);
      f_equal; apply world_eq; cbn; by rewrite ?app_nil_r, <- ?app_assoc.
  - f_equal.
Qed.

Lemma write_ops_path w path d :
  Forall (λ op, op_path op = path) (write_ops w path d).
Proof.
  unfold write_ops. destruct (w_open_fault w path); [constructor|].
  destruct (w_dump_fault w path d); repeat constructor.
Qed.

Lemma single_ops_path w pdf_path output_path :
  Forall (λ op, op_path op = output_path) (single_ops w pdf_path output_path).
Proof.
  assert (Forall (λ op, op_path op = output_path) (try_ops w pdf_path output_path))
    as Htry.
  { unfold try_ops. destruct (document_result _ _); [apply write_ops_path|constructor]. }
  unfold single_ops. destruct (try_error _ _ _); [|done].
  apply Forall_app. split; [done|apply write_ops_path].
Qed.

(** One run when the write it attempts goes through: the result of the
    document, or the message and the sentinel. *)
Lemma process_single_pdf_result pdf_path output_path w :
  write_error w output_path (written (document_result (w_files w) pdf_path)) = None →
  process_single_pdf pdf_path output_path w
  = match document_result (w_files w) pdf_path with
    | Ok d => (Ok true, world_after_success output_path d w)
    | Raise e => (Ok false, world_after_failure pdf_path output_path e w)
    end.
Proof.
  intros Hw. rewrite process_single_pdf_run.
  unfold single_answer, single_ops, single_lines, try_error, try_ops.
  destruct (document_result (w_files w) pdf_path) as [d|e]; cbn [written] in Hw.
  - rewrite Hw. f_equal. apply world_eq; cbn; rewrite ?app_nil_r; try done.
    unfold write_ops, write_error in *.
    destruct (w_open_fault w output_path); [done|]. by rewrite Hw.
  - rewrite Hw. f_equal. apply world_eq; cbn; try done.
    unfold write_ops, write_error in *.
    destruct (w_open_fault w output_path); [done|]. by rewrite Hw.
Qed.

Lemma writable_write_error w path d : writable w path → write_error w path d = None.
Proof. intros [Ho Hd]. unfold write_error. by rewrite Ho. Qed.

(** The batch loop over names whose output files are writable never raises
    and counts every document once. *)
Lemma process_files_total input_dir output_dir filenames :
  ∀ processed_count error_count w,
  outputs_writable w output_dir (pdf_names filenames) →
  ∃ counts w',
    process_files input_dir output_dir filenames processed_count error_count w
    = (Ok counts, w')
    ∧ counts.1 + counts.2
      = processed_count + error_count + Z.of_nat (length (pdf_names filenames)).
Proof.
  induction filenames as [|filename rest IH]; intros p ec w Hw.
  - exists (p, ec), w. split; [done|]. cbn. lia.
  - assert (pdf_names (filename :: rest)
            = if PyStr.endswith (PyStr.lower filename) ".pdf"
              then filename :: pdf_names rest else pdf_names rest) as Hnames
      by reflexivity.
    rewrite Hnames in *. clear Hnames. cbn [process_files].
    destruct (PyStr.endswith (PyStr.lower filename) ".pdf"); cbn [negb];
      [|by apply IH].
    unfold bind at 1. cbn [print]. unfold bind at 1.
    assert (writable w (output_path_of output_dir filename)) as Hfile
      by (apply Hw, elem_of_cons; by left).
    assert (outputs_writable w output_dir (pdf_names rest)) as Hrest
      by (intros f Hf; apply Hw, elem_of_cons; by right).
    fold (output_path_of output_dir filename).
    rewrite process_single_pdf_result
      by (apply (writable_write_error (log_line _ w)), Hfile).
    destruct (document_result _ _) as [d|e];
      match goal with
      | |- ∃ _ _, process_files _ _ _ ?p' ?e' ?w' = _ ∧ _ =>
          destruct (IH p' e' w' Hrest) as (counts & w'' & Heq & Hsum)
      end;
      exists counts, w''; (split; [exact Heq|cbn [length]; lia]).
Qed.

Lemma extraction_raises_result pdf_path w e :
  (extract_title_from_pdf pdf_path w).1 = Raise e
  ∨ ((∃ title, (extract_title_from_pdf pdf_path w).1 = Ok title)
     ∧ (extract_outline_from_pdf pdf_path w).1 = Raise e) →
  document_result (w_files w) pdf_path = Raise e.
Proof.
  rewrite document_result_extract. by intros [->|[[title ->] ->]].
Qed.

Lemma process_files_cons input_dir output_dir filename rest processed_count error_count w0 :
  PyStr.endswith (PyStr.lower filename) ".pdf" = true →
  process_files input_dir output_dir (filename :: rest) processed_count error_count w0
  = match (process_single_pdf (os_path_join input_dir filename)
             (os_path_join output_dir (PyStr.replace filename ".pdf" ".json"))
             (print ("Processing: " +:+ filename) w0).2).1 with
    | Ok success =>
        process_files input_dir output_dir rest
          (if success then processed_count + 1 else processed_count)
          (if success then error_count else error_count + 1)
          (process_single_pdf (os_path_join input_dir filename)
             (os_path_join output_dir (PyStr.replace filename ".pdf" ".json"))
             (print ("Processing: " +:+ filename) w0).2).2
    | Raise e =>
        (Raise e,
         (process_single_pdf (os_path_join input_dir filename)
            (os_path_join output_dir (PyStr.replace filename ".pdf" ".json"))
            (print ("Processing: " +:+ filename) w0).2).2)
    end.
Proof.
  intros Hpdf. cbn [process_files]. rewrite Hpdf. cbn [negb].
  rewrite bind_eq. cbn [print fst snd]. rewrite bind_eq.
  destruct (process_single_pdf _ _ _).1 as [[]|e]; done.
Qed.

(** C7, as the code has it.  When the title extraction raises, or the title
    is computed and the outline extraction raises, [process_single_pdf]
    prints the message and then writes the sentinel pair
    [{title: "Processing Error", outline: []}] to the output file.  When the
    output file can be opened and the sentinel dumped into it, the answer is
    [False], the output file holds exactly the sentinel, nothing of a
    computed title is written, and in the batch the loop goes on with the
    remaining names, with the error counter advanced.  When the output file
    cannot be opened, or the dump of the sentinel raises, that exception
    leaves [process_single_pdf] and with it the loop of the batch, whose
    remaining names are not processed.  A batch all of whose output files
    are writable ends without raising, having counted every document once. *)
Theorem C7_failure_gives_sentinel (pdf_path output_path : string) (w : world) (e : exn) :
  (extract_title_from_pdf pdf_path w).1 = Raise e
  ∨ ((∃ title, (extract_title_from_pdf pdf_path w).1 = Ok title)
     ∧ (extract_outline_from_pdf pdf_path w).1 = Raise e) →
  (w_open_fault w output_path = None →
   w_dump_fault w output_path error_output = None →
   process_single_pdf pdf_path output_path w
   = (Ok false, world_after_failure pdf_path output_path e w)
   ∧ output_files (w_fsops (process_single_pdf pdf_path output_path w).2) !! output_path
     = Some (JsonDoc {| od_title := "Processing Error"; od_outline := [] |})
   ∧ (∀ input_dir output_dir filename rest processed_count error_count w0,
        PyStr.endswith (PyStr.lower filename) ".pdf" = true →
        pdf_path = os_path_join input_dir filename →
        output_path = os_path_join output_dir (PyStr.replace filename ".pdf" ".json") →
        w = (print ("Processing: " +:+ filename) w0).2 →
        process_files input_dir output_dir (filename :: rest)
          processed_count error_count w0
        = process_files input_dir output_dir rest processed_count (error_count + 1)
            (world_after_failure pdf_path output_path e w)))
  ∧ (∀ e', write_error w output_path error_output = Some e' →
       process_single_pdf pdf_path output_path w
       = (Raise e',
          log (write_ops w output_path error_output)
            ["Error processing " +:+ pdf_path +:+ ": " +:+ e] w)
       ∧ (∀ input_dir output_dir filename rest processed_count error_count w0,
            PyStr.endswith (PyStr.lower filename) ".pdf" = true →
            pdf_path = os_path_join input_dir filename →
            output_path = os_path_join output_dir (PyStr.replace filename ".pdf" ".json") →
            w = (print ("Processing: " +:+ filename) w0).2 →
            process_files input_dir output_dir (filename :: rest)
              processed_count error_count w0
            = (Raise e',
               log (write_ops w output_path error_output)
                 ["Error processing " +:+ pdf_path +:+ ": " +:+ e] w)))
  ∧ (∀ input_dir output_dir filenames processed_count error_count w0,
       outputs_writable w0 output_dir (pdf_names filenames) →
       ∃ counts w',
         process_files input_dir output_dir filenames processed_count error_count w0
         = (Ok counts, w')
         ∧ counts.1 + counts.2
           = processed_count + error_count + Z.of_nat (length (pdf_names filenames))).
Proof.
  intros H%extraction_raises_result. split_and!.
  - intros Ho Hd.
    assert (process_single_pdf pdf_path output_path w
            = (Ok false, world_after_failure pdf_path output_path e w)) as Heq.
    { rewrite process_single_pdf_result; rewrite H; [done|].
      unfold write_error. by rewrite Ho. }
    split_and!.
    + exact Heq.
    + rewrite Heq. apply output_files_written.
    + intros input_dir output_dir filename rest p ec w0 Hpdf Hin Hout Hw.
      rewrite process_files_cons by done. by rewrite <- Hin, <- Hout, <- Hw, Heq.
  - intros e' He'.
    assert (process_single_pdf pdf_path output_path w
            = (Raise e',
               log (write_ops w output_path error_output)
                 ["Error processing " +:+ pdf_path +:+ ": " +:+ e] w)) as Heq.
    { rewrite process_single_pdf_run.
      unfold single_answer, single_ops, single_lines, try_error, try_ops.
      by rewrite H, He'. }
    split; [exact Heq|].
    intros input_dir output_dir filename rest p ec w0 Hpdf Hin Hout Hw.
    rewrite process_files_cons by done. by rewrite <- Hin, <- Hout, <- Hw, Heq.
  - intros. by apply process_files_total.
Qed.

Lemma C7_failure_gives_sentinel_witness :
  (extract_title_from_pdf "/app/input/a.pdf" world_damaged_page).1 = Ok "Annual Report"
  ∧ (extract_outline_from_pdf "/app/input/a.pdf" world_damaged_page).1
    = Raise "cannot read page 2"
  ∧ w_open_fault world_damaged_page "/app/output/a.json" = None
  ∧ w_dump_fault world_damaged_page "/app/output/a.json" error_output = None
  ∧ process_single_pdf "/app/input/a.pdf" "/app/output/a.json" world_damaged_page
    = (Ok false,
       world_after_failure "/app/input/a.pdf" "/app/output/a.json"
         "cannot read page 2" world_damaged_page).
Proof.
  split; [reflexivity|]. split; [reflexivity|].
  split; [reflexivity|]. split; [reflexivity|].
  apply (C7_failure_gives_sentinel "/app/input/a.pdf" "/app/output/a.json"
           world_damaged_page "cannot read page 2").
  - right. split; [by exists "Annual Report"|reflexivity].
  - reflexivity.
  - reflexivity.
Defined.

(** C7 as stated fails.  The handler writes the sentinel without protection:
    when the outline extraction of a document raises and its output file
    cannot be opened, [process_single_pdf] raises, no sentinel is written,
    and the loop of the batch ends there, so that the next document, which
    alone would go through, is not processed. *)
Lemma C7_counterexample :
  (extract_title_from_pdf "/app/input/a.pdf" world_unwritable).1 = Ok "Annual Report"
  ∧ (extract_outline_from_pdf "/app/input/a.pdf" world_unwritable).1
    = Raise "cannot read page 2"
  ∧ (process_single_pdf "/app/input/a.pdf" "/app/output/a.json" world_unwritable).1
    = Raise "[Errno 13] Permission denied: '/app/output/a.json'"
  ∧ output_files
      (w_fsops (process_single_pdf "/app/input/a.pdf" "/app/output/a.json"
                  world_unwritable).2) = ∅
  ∧ (process_single_pdf "/app/input/b.pdf" "/app/output/b.json" world_unwritable).1
    = Ok true
  ∧ (process_files "/app/input" "/app/output" ["a.pdf"; "b.pdf"] 0 0
       world_unwritable).1
    = Raise "[Errno 13] Permission denied: '/app/output/a.json'"
  ∧ w_stdout (process_files "/app/input" "/app/output" ["a.pdf"; "b.pdf"] 0 0
                world_unwritable).2
    = [ "Processing: a.pdf";
        "Error processing /app/input/a.pdf: cannot read page 2" ]
  ∧ output_files
      (w_fsops (process_files "/app/input" "/app/output" ["a.pdf"; "b.pdf"] 0 0
                  world_unwritable).2) = ∅.
Proof. split_and!; vm_compute; reflexivity. Qed.

Lemma output_files_last base ops op :
  last ops = Some op →
  output_files (base ++ ops) !! op_path op = Some (op_content op).
Proof.
  intros [ops' ->]%last_Some.
  rewrite app_assoc, output_files_app. cbn [fold_left]. rewrite apply_op_insert.
  apply lookup_insert_eq.
Qed.

(** C8, as the code has it.  [process_single_pdf] writes the output file in
    place.  Everything it does to files it does to the output path itself, so
    there is no temporary file and no publishing step.  When it returns
    [True], it has opened the output path, which leaves the file empty, and
    dumped the real result into it piece by piece.  When it returns at all,
    the file holds the complete real result (answer [True]) or the complete
    sentinel (answer [False]).  When it raises, it has either not touched the
    file or left it with a beginning of a result, not with all of one.  At
    no moment between two of its operations does the file hold a complete
    result. *)
Theorem C8_output_written_in_place (pdf_path output_path : string) (w : world) :
  ∃ ops : list fs_op,
    w_fsops (process_single_pdf pdf_path output_path w).2 = (w_fsops w ++ ops)%list
    ∧ Forall (λ op, op_path op = output_path) ops
    ∧ ((process_single_pdf pdf_path output_path w).1 = Ok true →
         ∃ title outline,
           (extract_title_from_pdf pdf_path w).1 = Ok title
           ∧ (extract_outline_from_pdf pdf_path w).1 = Ok outline
           ∧ ops = [ OpOpenW output_path;
                     OpDump output_path {| od_title := title; od_outline := outline |} ]
           ∧ contents_trace output_path ops
             = [ Truncated;
                 PartialJson {| od_title := title; od_outline := outline |};
                 JsonDoc {| od_title := title; od_outline := outline |} ]
           ∧ output_files (w_fsops (process_single_pdf pdf_path output_path w).2)
             !! output_path
             = Some (JsonDoc {| od_title := title; od_outline := outline |}))
    ∧ ((process_single_pdf pdf_path output_path w).1 = Ok false →
         (∃ pre, ops = (pre ++ [ OpOpenW output_path;
                                 OpDump output_path error_output ])%list)
         ∧ output_files (w_fsops (process_single_pdf pdf_path output_path w).2)
           !! output_path
           = Some (JsonDoc error_output))
    ∧ (∀ e, (process_single_pdf pdf_path output_path w).1 = Raise e →
         ops = []
         ∨ ∃ d, output_files (w_fsops (process_single_pdf pdf_path output_path w).2)
                !! output_path
                = Some (PartialJson d))
    ∧ (∀ n : nat, (0 < n < length ops)%nat →
         ∃ c, output_files (w_fsops w ++ take n ops) !! output_path = Some c
              ∧ ∀ d, c ≠ JsonDoc d).
Proof.
  exists (single_ops w pdf_path output_path).
  rewrite process_single_pdf_run. cbn [fst snd log w_fsops].
  pose proof (document_result_extract pdf_path w) as Hdoc.
  unfold single_ops, single_answer, try_ops, try_error, write_ops, write_error
    in *.
  split; [done|].
  split.
  { destruct (document_result (w_files w) pdf_path) as [d|e0];
      destruct (w_open_fault w output_path);
      try destruct (w_dump_fault w output_path d);
      destruct (w_dump_fault w output_path error_output);
      repeat constructor. }
  assert (∀ ops0 : list fs_op, ∀ n : nat,
            Forall (λ op, op_path op = output_path ∧ ∀ d, op_content op ≠ JsonDoc d)
              (removelast ops0) →
            (0 < n < length ops0)%nat →
            ∃ c, output_files (w_fsops w ++ take n ops0) !! output_path = Some c
                 ∧ ∀ d, c ≠ JsonDoc d) as Hbetween.
  { intros ops0 n Hall [Hpos Hlt].
    assert (∃ op, take n ops0 !! (n - 1)%nat = Some op
                  ∧ removelast ops0 !! (n - 1)%nat = Some op) as (op & Hop & Hrl).
    { destruct (lookup_lt_is_Some_2 ops0 (n - 1)%nat) as [op Hop]; [lia|].
      exists op. split.
      - rewrite lookup_take_lt by lia. exact Hop.
      - clear Hall. revert n Hpos Hlt Hop.
        induction ops0 as [|a [|b ops0] IH]; intros n Hpos Hlt Hop;
          cbn [length] in Hlt; [lia..|].
        destruct n as [|[|n]]; [lia|exact Hop|].
        change (removelast (a :: b :: ops0)) with (a :: removelast (b :: ops0)).
        replace (S (S n) - 1)%nat with (S (S n - 1)) in * by lia.
        cbn [lookup list_lookup] in *. apply IH; [lia|cbn [length]; lia|exact Hop]. }
    assert (take n ops0 = (take (n - 1) ops0 ++ [op])%list) as ->.
    { replace n with (S (n - 1)) at 1 by lia.
      rewrite lookup_take_lt in Hop by lia. by erewrite take_S_r. }
    apply list_elem_of_lookup_2 in Hrl.
    rewrite Forall_forall in Hall. destruct (Hall op Hrl) as [Hpath Hc].
    exists (op_content op). split; [|exact Hc].
    rewrite <- Hpath. apply output_files_last, last_snoc. }
  destruct (document_result (w_files w) pdf_path) as [d|e0];
    destruct (extract_title_from_pdf pdf_path w).1 as [title|e1];
    try destruct (extract_outline_from_pdf pdf_path w).1 as [outline|e2];
    try discriminate Hdoc; try injection Hdoc as Hdoc; subst;
    destruct (w_open_fault w output_path) as [eo|];
    try (destruct (w_dump_fault w output_path
                     {| od_title := title; od_outline := outline |}) as [ed|]);
    destruct (w_dump_fault w output_path error_output) as [es|];
    cbn [app]; split_and!.
  all: try (intros [=]; fail).
  all: try (intros ? [=]; by left).
  all: try (intros n Hn; cbn [length] in Hn; lia).
  all: try (intros n Hn; apply Hbetween; [|exact Hn]; cbn [removelast];
            repeat constructor; done).
  all: try (intros e _; right; exists error_output;
            apply (output_files_last _ _ (OpPartial output_path error_output));
            reflexivity).
  all: try (intros _; split;
            [ (by exists []) || (by eexists [_; _])
            | apply (output_files_last _ _ (OpDump output_path error_output));
              reflexivity ]).
  all: intros _; exists title, outline; split_and!; try done.
  all: try (cbn; by rewrite String.eqb_refl).
  all: apply (output_files_last _ _ (OpDump output_path _)); reflexivity.
Qed.

(** C8 as stated fails: the operations of a run are an open of the output
    path itself followed by the dump, none of them on another path; after
    the first of them the output file holds neither the real result nor the
    sentinel, and during the second it holds a beginning of the result.  A
    run whose dump stops on the way leaves such a beginning behind when the
    sentinel cannot be written either. *)
Lemma C8_counterexample :
  w_fsops (process_single_pdf "/app/input/a.pdf" "/app/output/a.json" world_report).2
  = [OpOpenW "/app/output/a.json"; OpDump "/app/output/a.json" report_result]
  ∧ Forall (λ op, op_path op = "/app/output/a.json")
      (w_fsops (process_single_pdf "/app/input/a.pdf" "/app/output/a.json" world_report).2)
  ∧ output_files
      (take 1 (w_fsops (process_single_pdf "/app/input/a.pdf" "/app/output/a.json"
                          world_report).2))
    !! "/app/output/a.json" = Some Truncated
  ∧ Truncated ≠ JsonDoc report_result
  ∧ Truncated ≠ JsonDoc error_output
  ∧ contents_trace "/app/output/a.json"
      (w_fsops (process_single_pdf "/app/input/a.pdf" "/app/output/a.json"
                  world_report).2)
    = [Truncated; PartialJson report_result; JsonDoc report_result]
  ∧ (process_single_pdf "/app/input/a.pdf" "/app/output/a.json" world_disk_full).1
    = Raise "[Errno 28] No space left on device"
  ∧ output_files
      (w_fsops (process_single_pdf "/app/input/a.pdf" "/app/output/a.json"
                  world_disk_full).2)
    !! "/app/output/a.json" = Some (PartialJson error_output).
Proof.
  split_and!; try (vm_compute; reflexivity); try discriminate.
  all: repeat constructor.
Qed.

(** ** The empty document *)

Lemma line_scan_no_runs page_num spans :
  flat_map (span_infos page_num) spans = [] →
  ∀ acc,
    fold_left
      (λ (acc : string * Z) (sp : span),
         let text := PyStr.strip (span_text sp) in
         if PyStr.is_empty text then acc
         else (acc.1 +:+ text +:+ " ", Z.max acc.2 (span_size sp)))
      spans acc = acc.
Proof.
  induction spans as [|sp spans IH]; intros H acc; [done|].
  cbn [flat_map] in H. apply app_eq_nil in H as [Hsp H].
  cbn [fold_left]. unfold span_infos in Hsp.
  destruct (PyStr.is_empty (PyStr.strip (span_text sp))); [|done].
  by apply IH.
Qed.

Lemma page_spans_nil_candidates page_num blocks :
  page_spans page_num blocks = [] → title_candidates blocks = [].
Proof.
  unfold page_spans, title_candidates.
  induction blocks as [|b blocks IH]; intros H; [done|].
  cbn [flat_map] in *. apply app_eq_nil in H as [Hb H]. rewrite (IH H), app_nil_r.
  destruct (negb (block_type b =? 0)); [done|].
  induction (block_lines b) as [|ln lns IHl]; [done|].
  cbn [flat_map] in *. apply app_eq_nil in Hb as [Hln Hb]. rewrite (IHl Hb), app_nil_r.
  unfold line_candidates, line_scan. by rewrite (line_scan_no_runs page_num _ Hln).
Qed.

(** C9, as the code has it.  For a document with no usable metadata title,
    an empty explicit tree and no run at all (no page, or pages without
    text), the title is the sentinel ["Untitled Document"] and the outline is
    empty: neither extraction raises.  The orchestrator then attempts to
    write that pair, and when the output file can be written it treats the
    document as a success: it returns [True], prints no error and the file
    holds that pair. *)
Theorem C9_empty_document (doc : document) :
  (∀ t, doc_metadata_title doc = Some t → PyStr.strip t = EmptyString) →
  doc_get_toc doc = Ok [] →
  collect_spans 0 (doc_pages doc) = Ok [] →
  title_of_document doc = Ok "Untitled Document"
  ∧ outline_of_document doc = Ok []
  ∧ (∀ w pdf_path,
       w_files w !! pdf_path = Some (Ok doc) →
       (extract_title_from_pdf pdf_path w).1 = Ok "Untitled Document"
       ∧ (extract_outline_from_pdf pdf_path w).1 = Ok [])
  ∧ (∀ w pdf_path output_path,
       w_files w !! pdf_path = Some (Ok doc) →
       w_open_fault w output_path = None →
       w_dump_fault w output_path
         {| od_title := "Untitled Document"; od_outline := [] |} = None →
       (process_single_pdf pdf_path output_path w).1 = Ok true
       ∧ w_stdout (process_single_pdf pdf_path output_path w).2 = w_stdout w
       ∧ output_files (w_fsops (process_single_pdf pdf_path output_path w).2)
         !! output_path
         = Some (JsonDoc {| od_title := "Untitled Document"; od_outline := [] |})).
Proof.
  intros Hmeta Htoc Hspans.
  assert (title_of_document doc = Ok "Untitled Document") as Ht.
  { unfold title_of_document.
    assert (truthy (doc_metadata_title doc)
            && negb (PyStr.is_empty
                       (PyStr.strip (default EmptyString (doc_metadata_title doc))))
            = false) as ->.
    { destruct (doc_metadata_title doc) as [t|]; [|done].
      change (default EmptyString (Some t)) with t.
      rewrite (Hmeta t eq_refl). apply andb_false_r. }
    destruct (doc_pages doc) as [|[blocks|e] rest]; [done| |done].
    cbn [collect_spans] in Hspans.
    destruct (collect_spans (0 + 1) rest) as [l|]; [|done].
    injection Hspans as [Hp _]%app_eq_nil.
    unfold sorted_candidates. by rewrite (page_spans_nil_candidates 0 blocks Hp). }
  assert (outline_of_document doc = Ok []) as Ho.
  { unfold outline_of_document, outline_with. by rewrite Htoc, Hspans. }
  split_and!; [done..| |].
  - intros w pdf_path Hw.
    by rewrite extract_title_from_pdf_eq, extract_outline_from_pdf_eq, Hw.
  - intros w pdf_path output_path Hw Hopen Hdump.
    assert (document_result (w_files w) pdf_path
            = Ok {| od_title := "Untitled Document"; od_outline := [] |}) as Hdoc.
    { unfold document_result. by rewrite Hw, Ht, Ho. }
    rewrite process_single_pdf_result; rewrite Hdoc.
    + cbn [fst snd world_after_success w_stdout w_fsops].
      split_and!; [done..|]. apply output_files_written.
    + unfold write_error. by rewrite Hopen.
Qed.

Lemma C9_empty_document_witness :
  title_of_document doc_textless = Ok "Untitled Document"
  ∧ outline_of_document doc_textless = Ok []
  ∧ (∀ w pdf_path,
       w_files w !! pdf_path = Some (Ok doc_textless) →
       (extract_title_from_pdf pdf_path w).1 = Ok "Untitled Document"
       ∧ (extract_outline_from_pdf pdf_path w).1 = Ok [])
  ∧ (∀ w pdf_path output_path,
       w_files w !! pdf_path = Some (Ok doc_textless) →
       w_open_fault w output_path = None →
       w_dump_fault w output_path
         {| od_title := "Untitled Document"; od_outline := [] |} = None →
       (process_single_pdf pdf_path output_path w).1 = Ok true
       ∧ w_stdout (process_single_pdf pdf_path output_path w).2 = w_stdout w
       ∧ output_files (w_fsops (process_single_pdf pdf_path output_path w).2)
         !! output_path
         = Some (JsonDoc {| od_title := "Untitled Document"; od_outline := [] |})).
Proof.
  apply (C9_empty_document doc_textless).
  - intros t Ht. discriminate Ht.
  - reflexivity.
  - reflexivity.
Defined.

(** C9 as stated fails: a document of scanned pages has no run and no
    metadata title, and when it carries an explicit tree its outline is that
    tree, not the empty sequence. *)
Lemma C9_counterexample :
  doc_metadata_title doc_scanned_bookmarked = None
  ∧ collect_spans 0 (doc_pages doc_scanned_bookmarked) = Ok []
  ∧ title_of_document doc_scanned_bookmarked = Ok "Untitled Document"
  ∧ outline_of_document doc_scanned_bookmarked
    = Ok [ {| oe_level := "H1"; oe_text := "Cover"; oe_page := 1 |} ]
  ∧ outline_of_document doc_scanned_bookmarked ≠ Ok [].
Proof. split_and!; try reflexivity. discriminate. Qed.

(** * Further properties *)

(** ** The text and the size of a title candidate *)

(** X1.  The text of a title candidate is the trimmed texts of the non-blank
    spans of its line joined by single spaces, its font size is the largest
    size among those spans and zero, and its position is the top of the line;
    a line gives a candidate exactly when that text has more than 3
    characters. *)
Theorem line_candidate_is_joined_text (ln : line) :
  line_candidates ln
  = if 3 <? PyStr.len (join_space (run_texts (line_spans ln)))
    then [ {| cand_text := join_space (run_texts (line_spans ln));
              cand_font_size := fold_left Z.max (run_sizes (line_spans ln)) 0;
              cand_y_pos := line_bbox_y ln |} ]
    else [].
Proof.
  unfold line_candidates, line_scan. rewrite line_scan_fold. cbn [fst snd].
  rewrite string_app_nil_l.
  rewrite (strip_spaced_texts _ (run_texts_trimmed _)).
  destruct (3 <? PyStr.len (join_space (run_texts (line_spans ln)))) eqn:E.
  - assert (PyStr.is_empty (join_space (run_texts (line_spans ln))) = false) as ->; [|done].
    apply Z.ltb_lt in E. by destruct (join_space _).
  - by rewrite andb_false_r.
Qed.

(** ** What the title is and what it reads *)

Lemma title_condition doc :
  truthy (doc_metadata_title doc)
  && negb (PyStr.is_empty (PyStr.strip (default EmptyString (doc_metadata_title doc))))
  = metadata_usable doc.
Proof.
  unfold metadata_usable. destruct (doc_metadata_title doc) as [t|]; [|done].
  change (default EmptyString (Some t)) with t. by destruct t.
Qed.

Lemma title_candidates_trimmed blocks c :
  c ∈ title_candidates blocks →
  PyStr.is_empty (cand_text c) = false ∧ PyStr.strip (cand_text c) = cand_text c.
Proof.
  unfold title_candidates. rewrite list_elem_of_In, in_flat_map.
  intros (b & _ & Hc). destruct (negb _); [done|].
  apply in_flat_map in Hc as (ln & _ & Hc). unfold line_candidates in Hc.
  destruct (negb (PyStr.is_empty _) && _) eqn:E; [|done].
  destruct Hc as [<-|[]]. cbn [cand_text].
  apply andb_true_iff in E as [E _]. apply negb_true_iff in E.
  split; [exact E|apply strip_idem].
Qed.

Lemma page_title_trimmed (pages : list (result (list block))) (t : string) :
  match pages with
  | [] => Ok "Untitled Document"
  | Raise e :: _ => Raise e
  | Ok blocks :: _ =>
      match find (λ c, 10 <=? PyStr.len (cand_text c)) (sorted_candidates blocks) with
      | Some c => Ok (cand_text c)
      | None =>
          match sorted_candidates blocks with
          | c :: _ => Ok (cand_text c)
          | [] => Ok "Untitled Document"
          end
      end
  end = Ok t →
  PyStr.is_empty t = false ∧ PyStr.strip t = t.
Proof.
  destruct pages as [|[blocks|e] rest]; [by intros [= <-]| |done].
  assert (∀ c, c ∈ sorted_candidates blocks →
            PyStr.is_empty (cand_text c) = false
            ∧ PyStr.strip (cand_text c) = cand_text c) as Hc.
  { intros c Hc. apply (title_candidates_trimmed blocks).
    unfold sorted_candidates in Hc. by rewrite sort_by_perm in Hc. }
  destruct (find _ (sorted_candidates blocks)) as [c|] eqn:Ef.
  - intros [= <-]. apply Hc. apply find_some in Ef as [Hin _].
    by apply list_elem_of_In.
  - destruct (sorted_candidates blocks) as [|c l]; [by intros [= <-]|].
    intros [= <-]. apply Hc. apply elem_of_cons. by left.
Qed.

(** X2.  A title that is returned is never blank and carries no leading or
    trailing whitespace: it is the trimmed metadata title, the trimmed text of
    a line, or the sentinel. *)
Theorem title_not_blank_and_trimmed (doc : document) (t : string) :
  title_of_document doc = Ok t →
  PyStr.is_empty t = false ∧ PyStr.strip t = t.
Proof.
  unfold title_of_document. rewrite title_condition. unfold metadata_usable.
  destruct (doc_metadata_title doc) as [m|]; [|apply page_title_trimmed].
  change (default EmptyString (Some m)) with m.
  destruct (PyStr.is_empty (PyStr.strip m)) eqn:E; cbn [negb];
    [apply page_title_trimmed|].
  intros [= <-]. split; [exact E|apply strip_idem].
Qed.

Lemma title_not_blank_and_trimmed_witness :
  PyStr.is_empty "A Long Enough Title" = false
  ∧ PyStr.strip "A Long Enough Title" = "A Long Enough Title".
Proof.
  apply (title_not_blank_and_trimmed doc_title_example "A Long Enough Title").
  vm_compute. reflexivity.
Defined.

(** X3.  The title is read from the metadata title and the first page alone:
    two documents that agree on these have the same title, whatever their
    bookmarks and other pages are.  The extraction raises exactly when the
    metadata title is not usable and the first page cannot be read, with the
    exception of that page. *)
Theorem title_reads_metadata_and_first_page (doc : document) :
  (∀ e, title_of_document doc = Raise e
        ↔ metadata_usable doc = false ∧ ∃ rest, doc_pages doc = Raise e :: rest)
  ∧ (∀ doc', doc_metadata_title doc' = doc_metadata_title doc →
       head (doc_pages doc') = head (doc_pages doc) →
       title_of_document doc' = title_of_document doc).
Proof.
  split.
  - intros e. unfold title_of_document. rewrite title_condition.
    destruct (metadata_usable doc).
    + split; [done|]. by intros [? _].
    + destruct (doc_pages doc) as [|[blocks|e'] rest].
      * split; [done|]. by intros [_ [? ?]].
      * split.
        -- destruct (find _ _); [done|]. by destruct (sorted_candidates blocks).
        -- by intros [_ [? ?]].
      * split.
        -- intros [= ->]. split; [done|]. by exists rest.
        -- by intros [_ [? [= ->]]].
  - intros doc' Hm Hp. unfold title_of_document. rewrite Hm.
    destruct (truthy _ && _); [done|].
    destruct (doc_pages doc) as [|pg rest], (doc_pages doc') as [|pg' rest'];
      cbn in Hp; try done. by injection Hp as ->.
Qed.

(** ** The bookmark path: levels *)

Lemma level_label_in_labels (i : nat) : level_label i ∈ level_labels.
Proof.
  unfold level_labels.
  do 6 (destruct i as [|i]; [cbn; set_solver|]). cbn. set_solver.
Qed.

(** X4.  On the bookmark path a depth from 1 on is mapped to one of the six
    labels, the same label the font ranking gives to that rank, and every
    depth from 6 on to ["H6"]; a depth below 1 is not clamped and gives a
    label outside H1..H6.  Text and page are the trimmed label and the page
    of the bookmark. *)
Theorem toc_entry_level_clamped_above (level : Z) (title : string) (page_num : Z) :
  (1 ≤ level →
   oe_level (toc_entry (level, title, page_num))
   = level_label (Z.to_nat (Z.min level 6 - 1))
   ∧ oe_level (toc_entry (level, title, page_num)) ∈ level_labels)
  ∧ (6 ≤ level → oe_level (toc_entry (level, title, page_num)) = "H6")
  ∧ (level ≤ 0 → oe_level (toc_entry (level, title, page_num)) ∉ level_labels)
  ∧ oe_text (toc_entry (level, title, page_num)) = PyStr.strip title
  ∧ oe_page (toc_entry (level, title, page_num)) = page_num.
Proof.
  cbn [toc_entry oe_level oe_text oe_page]. split_and!; try done.
  - intros H.
    assert (oe_level (toc_entry (level, title, page_num))
            = level_label (Z.to_nat (Z.min level 6 - 1))) as Heq.
    { cbn [toc_entry oe_level].
      assert (Z.min level 6 = 1 ∨ Z.min level 6 = 2 ∨ Z.min level 6 = 3
              ∨ Z.min level 6 = 4 ∨ Z.min level 6 = 5 ∨ Z.min level 6 = 6)
        as [->|[->|[->|[->|[->| ->]]]]] by lia; reflexivity. }
    cbn [toc_entry oe_level] in Heq. rewrite Heq.
    split; [done|apply level_label_in_labels].
  - intros H. by rewrite Z.min_r by lia.
  - intros H. rewrite Z.min_l by lia. unfold level_labels.
    destruct level as [|p|p]; [|lia|]; intros Hin;
      repeat (apply elem_of_cons in Hin as [Hin|Hin]; [discriminate Hin|]);
      by apply elem_of_nil in Hin.
Qed.

(** ** When the outline extraction raises *)

Lemma collect_spans_raise pages : ∀ page_num e,
  collect_spans page_num pages = Raise e
  ↔ ∃ (good : list (list block)) rest, pages = (map Ok good ++ Raise e :: rest)%list.
Proof.
  induction pages as [|[blocks|e'] pages IH]; intros page_num e; cbn [collect_spans].
  - split; [done|]. intros (good & rest & H). by destruct good.
  - destruct (collect_spans (page_num + 1) pages) as [l|e''] eqn:E.
    + split; [done|]. intros ([|g good] & rest & H); [done|].
      cbn in H. injection H as -> H.
      assert (collect_spans (page_num + 1) pages = Raise e) as H'
        by (apply IH; by exists good, rest).
      congruence.
    + apply IH in E as (good & rest & ->). split.
      * intros [= ->]. by exists (blocks :: good), rest.
      * intros ([|g good'] & rest' & H); [done|].
        cbn in H. injection H as -> H.
        assert (collect_spans (page_num + 1) (map Ok good ++ Raise e'' :: rest)%list
                = Raise e) as H'.
        { apply IH. by exists good', rest'. }
        assert (collect_spans (page_num + 1) (map Ok good ++ Raise e'' :: rest)%list
                = Raise e'') as H''.
        { apply IH. by exists good, rest. }
        congruence.
  - split.
    + intros [= ->]. by exists [], pages.
    + intros ([|g good] & rest & H); [by injection H as ->|done].
Qed.

(** X5.  The outline extraction raises exactly in two cases: reading the
    bookmarks raises, or there is no bookmark and a page cannot be read, in
    which case the exception is that of the first such page.  With a
    bookmark, unreadable pages never make it raise. *)
Theorem outline_raises_iff (doc : document) (e : exn) :
  outline_of_document doc = Raise e
  ↔ doc_get_toc doc = Raise e
    ∨ (doc_get_toc doc = Ok []
       ∧ ∃ (good : list (list block)) rest,
           doc_pages doc = (map Ok good ++ Raise e :: rest)%list).
Proof.
  unfold outline_of_document, outline_with.
  destruct (doc_get_toc doc) as [[|item items]|e'].
  - rewrite <- (collect_spans_raise (doc_pages doc) 0 e).
    destruct (collect_spans 0 (doc_pages doc)) as [l|e']; split.
    + done.
    + by intros [?|[_ ?]].
    + intros [= ->]. right. split; reflexivity.
    + by intros [?|[_ [= ->]]].
  - split; [done|]. by intros [?|[? _]].
  - split; [intros [= ->]; by left|]. by intros [[= ->]|[? _]].
Qed.

(** ** What the level map holds *)

Lemma detect_lookup spans_data k l :
  detect_heading_levels spans_data !! k = Some l
  ↔ ∃ i : nat, (i < 6)%nat
      ∧ unique_sizes_of (collect_font_sizes spans_data) !! i = Some k
      ∧ l = level_label i.
Proof.
  rewrite detect_heading_levels_eq.
  set (u := unique_sizes_of (collect_font_sizes spans_data)).
  assert (NoDup (take 6 u)) as Hnd.
  { eapply sublist_NoDup; [apply unique_sizes_NoDup|apply sublist_take]. }
  split.
  - intros Hl.
    assert (k ∈ take 6 u) as (i & Hi & Hlt)%elem_of_take.
    { destruct (decide (k ∈ take 6 u)) as [|Hn]; [done|].
      rewrite (assign_levels_other _ _ _ _ Hn) in Hl. done. }
    exists i. split_and!; [done..|].
    rewrite (assign_levels_lookup (take 6 u) 0 i ∅ k Hnd) in Hl
      by by apply lookup_take_Some.
    by injection Hl as <-.
  - intros (i & Hlt & Hi & ->).
    by rewrite (assign_levels_lookup (take 6 u) 0 i ∅ k Hnd)
      by by apply lookup_take_Some.
Qed.

Lemma detect_dom_spec spans_data k :
  k ∈ dom (detect_heading_levels spans_data)
  ↔ k ∈ ranked_sizes spans_data
    ∧ (larger_in (ranked_sizes spans_data) k < 6)%nat.
Proof.
  pose proof (unique_sizes_NoDup (collect_font_sizes spans_data)) as Hnd.
  pose proof (unique_sizes_sorted (collect_font_sizes spans_data)) as Hs.
  assert (∀ x, x ∈ unique_sizes_of (collect_font_sizes spans_data)
               ↔ x ∈ ranked_sizes spans_data) as Hu
    by (intros x; apply unique_sizes_elem).
  assert (∀ (i : nat) x,
            unique_sizes_of (collect_font_sizes spans_data) !! i = Some x →
            larger_in (ranked_sizes spans_data) x = i) as Hrank.
  { intros i x Hi. rewrite (larger_in_list _ _ x Hnd Hu). by apply rank_in_descending. }
  rewrite elem_of_dom. split.
  - intros [l (i & Hlt & Hi & _)%detect_lookup]. rewrite (Hrank i k Hi).
    split; [|done]. apply Hu. by eapply list_elem_of_lookup_2.
  - intros [(i & Hi)%Hu%list_elem_of_lookup_1 Hlt].
    rewrite (Hrank i k Hi) in Hlt. exists (level_label i).
    apply detect_lookup. by exists i.
Qed.

(** X6.  The level map is a function of the set of non-zero sizes: lists of
    runs with the same non-zero sizes, in any order and any multiplicity and
    with any texts, give the same map. *)
Theorem level_map_depends_on_size_set (l1 l2 : list span_info) :
  (∀ z, z ≠ 0 → (z ∈ map si_font_size l1 ↔ z ∈ map si_font_size l2)) →
  detect_heading_levels l1 = detect_heading_levels l2.
Proof.
  intros H.
  assert (ranked_sizes l1 = ranked_sizes l2) as Hset.
  { apply set_eq. intros z. rewrite !ranked_sizes_spec. unfold distinct_sizes.
    rewrite !elem_of_list_to_set. split; intros [Hz Hin]; (split; [done|]);
      by apply (H z Hz). }
  rewrite !detect_heading_levels_eq. unfold unique_sizes_of.
  fold (ranked_sizes l1). fold (ranked_sizes l2). by rewrite Hset.
Qed.

Lemma level_map_depends_on_size_set_witness :
  detect_heading_levels [run_of_size 12; run_of_size 0; run_of_size 18; run_of_size 12]
  = detect_heading_levels [run_of_size 18; run_of_size 12].
Proof.
  apply level_map_depends_on_size_set. intros z Hz. cbn.
  rewrite !elem_of_cons, !elem_of_nil. lia.
Defined.

(** X7.  A run of the scanned list is taken for a heading exactly when its
    size is not zero, fewer than 6 distinct non-zero sizes of the document
    exceed it, and its trimmed text has at most 200 characters.  So in a
    document with at most 6 distinct non-zero sizes every run of non-zero
    size and at most 200 characters is taken for a heading, body text
    included. *)
Theorem heading_run_of_detected_levels (spans_data : list span_info) (r : span_info) :
  r ∈ spans_data →
  (heading_run (detect_heading_levels spans_data) r = true
   ↔ si_font_size r ≠ 0
     ∧ (larger_in (ranked_sizes spans_data) (si_font_size r) < 6)%nat
     ∧ PyStr.len (PyStr.strip (si_text r)) ≤ 200)
  ∧ ((size (ranked_sizes spans_data) ≤ 6)%nat →
     si_font_size r ≠ 0 →
     PyStr.len (PyStr.strip (si_text r)) ≤ 200 →
     heading_run (detect_heading_levels spans_data) r = true).
Proof.
  intros Hr.
  assert (si_font_size r ≠ 0 → si_font_size r ∈ ranked_sizes spans_data) as Hin.
  { intros Hz. apply ranked_sizes_spec. split; [done|].
    unfold distinct_sizes. rewrite elem_of_list_to_set, list_elem_of_In.
    apply in_map. by apply list_elem_of_In. }
  assert (heading_run (detect_heading_levels spans_data) r = true
          ↔ si_font_size r ≠ 0
            ∧ (larger_in (ranked_sizes spans_data) (si_font_size r) < 6)%nat
            ∧ PyStr.len (PyStr.strip (si_text r)) ≤ 200) as Hiff.
  { unfold heading_run. rewrite is_likely_heading_eq. unfold effective_heading_rule.
    rewrite andb_true_iff, bool_decide_eq_true, Z.leb_le, detect_dom_spec,
      ranked_sizes_spec.
    split; [tauto|]. intros (Hz & Hlt & Hlen). split_and!; try done.
    by apply ranked_sizes_spec, Hin. }
  split; [exact Hiff|].
  intros Hsize Hz Hlen. apply Hiff. split_and!; try done.
  unfold larger_in. eapply Nat.lt_le_trans; [|exact Hsize].
  apply subset_size. split.
  - intros x [_ ?]%elem_of_filter. done.
  - intros Hsub. specialize (Hsub _ (Hin Hz)).
    apply elem_of_filter in Hsub as [? _]. lia.
Qed.

Lemma heading_run_of_detected_levels_witness :
  (heading_run
     (detect_heading_levels [run_of_size 12; run_of_size 0]) (run_of_size 12) = true
   ↔ si_font_size (run_of_size 12) ≠ 0
     ∧ (larger_in (ranked_sizes [run_of_size 12; run_of_size 0])
          (si_font_size (run_of_size 12)) < 6)%nat
     ∧ PyStr.len (PyStr.strip (si_text (run_of_size 12))) ≤ 200)
  ∧ ((size (ranked_sizes [run_of_size 12; run_of_size 0]) ≤ 6)%nat →
     si_font_size (run_of_size 12) ≠ 0 →
     PyStr.len (PyStr.strip (si_text (run_of_size 12))) ≤ 200 →
     heading_run
       (detect_heading_levels [run_of_size 12; run_of_size 0]) (run_of_size 12) = true).
Proof.
  apply (heading_run_of_detected_levels [run_of_size 12; run_of_size 0] (run_of_size 12)).
  apply elem_of_cons. by left.
Defined.

(** ** What an entry of the heuristic outline looks like *)

Lemma sub_ws_length_le s : ∀ b,
  (String.length (PyStr.sub_ws b s) ≤ String.length s)%nat.
Proof.
  induction s as [|c s IH]; intros b; cbn [PyStr.sub_ws String.length]; [done|].
  pose proof (IH true). pose proof (IH false).
  destruct (PyStr.is_space c); [destruct b|]; cbn [String.length]; lia.
Qed.

Lemma sub_ws_idem s : ∀ b,
  PyStr.sub_ws b (PyStr.sub_ws b s) = PyStr.sub_ws b s.
Proof.
  induction s as [|c s IH]; intros b; cbn [PyStr.sub_ws]; [done|].
  destruct (PyStr.is_space c) eqn:E.
  - destruct b; [apply IH|]. cbn [PyStr.sub_ws].
    change (PyStr.is_space " ") with true. cbn iota. by rewrite IH.
  - cbn [PyStr.sub_ws]. by rewrite E, IH.
Qed.

Lemma sub_ws_nonempty s : ∀ b,
  PyStr.rstrip s = s → PyStr.is_empty s = false →
  PyStr.is_empty (PyStr.sub_ws b s) = false.
Proof.
  induction s as [|c s IH]; intros b Hr Hne; [done|].
  cbn [PyStr.sub_ws]. destruct (PyStr.is_space c) eqn:E; [|done].
  destruct b; [|done]. cbn [PyStr.rstrip] in Hr. rewrite E in Hr. cbn [andb] in Hr.
  destruct (PyStr.is_empty (PyStr.rstrip s)) eqn:Es; [done|].
  injection Hr as Hr. apply IH; [done|]. by rewrite Hr in Es.
Qed.

Lemma rstrip_sub_ws s : ∀ b,
  PyStr.rstrip s = s → PyStr.rstrip (PyStr.sub_ws b s) = PyStr.sub_ws b s.
Proof.
  induction s as [|c s IH]; intros b Hr; [done|].
  cbn [PyStr.rstrip] in Hr.
  destruct (PyStr.is_space c && PyStr.is_empty (PyStr.rstrip s)) eqn:Ec; [done|].
  injection Hr as Hr. cbn [PyStr.sub_ws].
  destruct (PyStr.is_space c) eqn:E.
  - cbn [andb] in Ec. rewrite Hr in Ec.
    destruct b; [by apply IH|]. cbn [PyStr.rstrip].
    rewrite (IH true Hr), (sub_ws_nonempty s true Hr Ec). by rewrite andb_false_r.
  - cbn [PyStr.rstrip]. by rewrite E, (IH false Hr).
Qed.

Lemma heading_text_trimmed r : PyStr.strip (heading_text r) = heading_text r.
Proof.
  unfold heading_text, PyStr.collapse_ws.
  assert (PyStr.lstrip (PyStr.sub_ws false (PyStr.strip (si_text r)))
          = PyStr.sub_ws false (PyStr.strip (si_text r))) as Hl.
  { destruct (strip_head (si_text r)) as [->|(c & s' & -> & Hc)]; [done|].
    cbn [PyStr.sub_ws]. rewrite Hc. cbn [PyStr.lstrip]. by rewrite Hc. }
  unfold PyStr.strip at 1. rewrite Hl. apply rstrip_sub_ws, rstrip_strip.
Qed.

Lemma heuristic_entry_origin spans_data e :
  e ∈ heuristic_outline detect_heading_levels is_likely_heading spans_data →
  ∃ r, r ∈ spans_data
       ∧ e = entry_of (detect_heading_levels spans_data) r
       ∧ heading_run (detect_heading_levels spans_data) r = true
       ∧ 3 ≤ PyStr.len (heading_text r).
Proof.
  intros (r & -> & Hr)%elem_of_heuristic_outline.
  apply survivors_spec in Hr as (i & Hi & Hh & Hlen & _).
  exists r. split_and!; try done. by eapply list_elem_of_lookup_2.
Qed.

(** X8.  Every entry of the heuristic outline comes from a scanned run: its
    page is the page of the run, its level is the label the level map gives
    to the size of the run and is one of H1..H6, and its text is the
    collapsed trimmed text of the run, of 3 to 200 characters. *)
Theorem heuristic_entry_level_and_length (spans_data : list span_info) (e : outline_entry) :
  e ∈ heuristic_outline detect_heading_levels is_likely_heading spans_data →
  oe_level e ∈ level_labels
  ∧ 3 ≤ PyStr.len (oe_text e) ≤ 200
  ∧ ∃ r, r ∈ spans_data
         ∧ oe_page e = si_page r
         ∧ oe_text e = PyStr.collapse_ws (PyStr.strip (si_text r))
         ∧ detect_heading_levels spans_data !! si_font_size r = Some (oe_level e).
Proof.
  intros (r & Hr & -> & Hh & Hlen)%heuristic_entry_origin.
  destruct (heading_run_mapped _ _ Hh) as [l Hl].
  assert (oe_level (entry_of (detect_heading_levels spans_data) r) = l) as Hlev.
  { cbn [entry_of oe_level]. by rewrite (lookup_total_correct _ _ _ Hl). }
  rewrite Hlev. split_and!.
  - apply detect_lookup in Hl as (i & _ & _ & ->). apply level_label_in_labels.
  - exact Hlen.
  - cbn [entry_of oe_text]. unfold heading_run in Hh.
    rewrite is_likely_heading_eq in Hh. unfold effective_heading_rule in Hh.
    apply andb_true_iff in Hh as [_ Hh%Z.leb_le].
    pose proof (sub_ws_length_le (PyStr.strip (si_text r)) false).
    unfold heading_text, PyStr.collapse_ws, PyStr.len in *. lia.
  - exists r. by split_and!.
Qed.

Lemma heuristic_entry_level_and_length_witness :
  oe_level {| oe_level := "H1"; oe_text := "A B"; oe_page := 1 |} ∈ level_labels
  ∧ 3 ≤ PyStr.len (oe_text {| oe_level := "H1"; oe_text := "A B"; oe_page := 1 |}) ≤ 200
  ∧ ∃ r, r ∈ [run_on_page_1 "A  B"; run_on_page_1 "A B"]
         ∧ oe_page {| oe_level := "H1"; oe_text := "A B"; oe_page := 1 |} = si_page r
         ∧ oe_text {| oe_level := "H1"; oe_text := "A B"; oe_page := 1 |}
           = PyStr.collapse_ws (PyStr.strip (si_text r))
         ∧ detect_heading_levels [run_on_page_1 "A  B"; run_on_page_1 "A B"]
             !! si_font_size r
           = Some (oe_level {| oe_level := "H1"; oe_text := "A B"; oe_page := 1 |}).
Proof.
  apply (heuristic_entry_level_and_length
           [run_on_page_1 "A  B"; run_on_page_1 "A B"]).
  vm_compute. apply elem_of_cons. by left.
Defined.

(** X9.  The text of every entry of the heuristic outline is in normal form:
    it has no leading or trailing whitespace, and collapsing its whitespace
    again changes nothing, so whitespace occurs in it only as single spaces
    between other characters. *)
Theorem heuristic_entry_text_normal (spans_data : list span_info) (e : outline_entry) :
  e ∈ heuristic_outline detect_heading_levels is_likely_heading spans_data →
  PyStr.strip (oe_text e) = oe_text e
  ∧ PyStr.collapse_ws (oe_text e) = oe_text e.
Proof.
  intros (r & _ & -> & _)%heuristic_entry_origin. cbn [entry_of oe_text]. split.
  - apply heading_text_trimmed.
  - unfold heading_text, PyStr.collapse_ws. apply sub_ws_idem.
Qed.

Lemma heuristic_entry_text_normal_witness :
  PyStr.strip (oe_text {| oe_level := "H1"; oe_text := "A B"; oe_page := 1 |})
  = oe_text {| oe_level := "H1"; oe_text := "A B"; oe_page := 1 |}
  ∧ PyStr.collapse_ws (oe_text {| oe_level := "H1"; oe_text := "A B"; oe_page := 1 |})
    = oe_text {| oe_level := "H1"; oe_text := "A B"; oe_page := 1 |}.
Proof.
  apply (heuristic_entry_text_normal [run_on_page_1 "A  B"; run_on_page_1 "A B"]).
  vm_compute. apply elem_of_cons. by left.
Defined.

Lemma collect_spans_page_range pages : ∀ page_num spans_data r,
  collect_spans page_num pages = Ok spans_data → r ∈ spans_data →
  page_num + 1 ≤ si_page r ≤ page_num + Z.of_nat (length pages).
Proof.
  induction pages as [|[blocks|e] pages IH]; intros page_num spans_data r;
    cbn [collect_spans]; [by intros [= <-] ?%elem_of_nil| |done].
  destruct (collect_spans (page_num + 1) pages) as [rest|] eqn:E; [|done].
  intros [= <-] [Hr|Hr]%elem_of_app; cbn [length].
  - apply page_spans_page in Hr. lia.
  - specialize (IH _ _ _ E Hr). lia.
Qed.

(** X10.  On the heuristic path of a document, the page of every outline
    entry is a page of the document, counted from 1. *)
Theorem heuristic_outline_pages_in_range (doc : document) (outline : list outline_entry)
    (e : outline_entry) :
  doc_get_toc doc = Ok [] →
  outline_of_document doc = Ok outline →
  e ∈ outline →
  1 ≤ oe_page e ≤ Z.of_nat (length (doc_pages doc)).
Proof.
  intros Htoc Hout He. unfold outline_of_document, outline_with in Hout.
  rewrite Htoc in Hout.
  destruct (collect_spans 0 (doc_pages doc)) as [spans_data|] eqn:E; [|done].
  injection Hout as <-.
  apply heuristic_entry_origin in He as (r & Hr & -> & _).
  pose proof (collect_spans_page_range _ _ _ _ E Hr). cbn [entry_of oe_page]. lia.
Qed.

Lemma heuristic_outline_pages_in_range_witness :
  1 ≤ oe_page {| oe_level := "H1"; oe_text := "Header"; oe_page := 1 |}
  ≤ Z.of_nat (length (doc_pages doc_title_example)).
Proof.
  apply (heuristic_outline_pages_in_range doc_title_example title_example_outline).
  - reflexivity.
  - vm_compute. reflexivity.
  - unfold title_example_outline. apply elem_of_cons. right.
    apply elem_of_cons. by left.
Defined.

(** X11.  When every run has the size zero the level map is empty and the
    heuristic outline has no entry. *)
Theorem no_ranked_size_no_outline (spans_data : list span_info) :
  (∀ r, r ∈ spans_data → si_font_size r = 0) →
  detect_heading_levels spans_data = ∅
  ∧ heuristic_outline detect_heading_levels is_likely_heading spans_data = [].
Proof.
  intros Hz.
  assert (detect_heading_levels spans_data = ∅) as Hm.
  { apply dom_empty_iff_L, set_eq. intros k. rewrite detect_dom_spec, ranked_sizes_spec.
    unfold distinct_sizes. rewrite elem_of_list_to_set, list_elem_of_In, in_map_iff.
    split; [|set_solver]. intros [[Hk (r & <- & Hr)] _].
    apply list_elem_of_In, Hz in Hr. done. }
  split; [exact Hm|].
  apply elem_of_nil_inv. intros e (r & _ & _ & Hh & _)%heuristic_entry_origin.
  apply heading_run_mapped in Hh as [l Hl]. rewrite Hm in Hl. done.
Qed.

Lemma no_ranked_size_no_outline_witness :
  detect_heading_levels [run_of_size 0; run_of_size 0] = ∅
  ∧ heuristic_outline detect_heading_levels is_likely_heading
      [run_of_size 0; run_of_size 0] = [].
Proof.
  apply no_ranked_size_no_outline. intros r.
  rewrite !elem_of_cons, elem_of_nil. by intros [->|[->|[]]].
Defined.

(** ** The bold flag *)

Lemma prefix_lower p : ∀ s,
  String.prefix p s = true → String.prefix (PyStr.lower p) (PyStr.lower s) = true.
Proof.
  induction p as [|a p IH]; intros [|b s]; cbn; try done.
  destruct (ascii_dec a b) as [->|]; [|done]. intros H.
  destruct (ascii_dec _ _); [by apply IH|done].
Qed.

Lemma contains_lower p s :
  PyStr.contains p s = true → PyStr.contains (PyStr.lower p) (PyStr.lower s) = true.
Proof.
  induction s as [|c s IH]; cbn [PyStr.contains PyStr.lower];
    rewrite !orb_true_iff; intros [H|H]; try done.
  - left. by apply (prefix_lower p EmptyString).
  - left. by apply (prefix_lower p (String c s)).
  - right. by apply IH.
Qed.

Lemma is_bold_font_lower (font : string) :
  is_bold_font font = PyStr.contains "bold" (PyStr.lower font).
Proof.
  unfold is_bold_font.
  destruct (PyStr.contains "Bold" font) eqn:E; [|done].
  apply (contains_lower "Bold" font) in E.
  change (PyStr.lower "Bold") with "bold" in E. by rewrite E.
Qed.

(** X12.  The bold flag of a run is the case-insensitive test: it holds
    exactly when the lowercased font name contains ["bold"]; the test for
    ["Bold"] in the name as it is adds nothing. *)
Theorem bold_flag_is_case_insensitive (font : string) :
  is_bold_font font = PyStr.contains "bold" (PyStr.lower font)
  ∧ (PyStr.contains "Bold" font = true →
     PyStr.contains "bold" (PyStr.lower font) = true).
Proof.
  split; [apply is_bold_font_lower|]. intros E.
  by apply (contains_lower "Bold" font) in E.
Qed.

(** ** One document: what is touched, and running it again *)

(** X13.  Of the output files, [process_single_pdf] changes the one at its
    output path only: every other output file holds afterwards what it held
    before, whether the document went through or failed. *)
Theorem process_single_pdf_touches_its_output_only
    (pdf_path output_path other : string) (w : world) :
  other ≠ output_path →
  output_files (w_fsops (process_single_pdf pdf_path output_path w).2) !! other
  = output_files (w_fsops w) !! other.
Proof.
  intros Hne. rewrite process_single_pdf_run. cbn [snd log w_fsops].
  rewrite output_files_app. apply apply_ops_other.
  eapply Forall_impl; [apply single_ops_path|]. cbn. by intros op ->.
Qed.

Lemma process_single_pdf_touches_its_output_only_witness :
  output_files
    (w_fsops (process_single_pdf "/app/input/a.pdf" "/app/output/a.json"
                world_report).2) !! "/app/output/b.json"
  = output_files (w_fsops world_report) !! "/app/output/b.json".
Proof.
  apply (process_single_pdf_touches_its_output_only
           "/app/input/a.pdf" "/app/output/a.json" "/app/output/b.json" world_report).
  discriminate.
Defined.

(** X14.  When the output path is not the path of the document, running
    [process_single_pdf] a second time on the same paths gives the same
    answer and leaves every output file as the first run left it. *)
Theorem process_single_pdf_rerun (pdf_path output_path : string) (w : world) :
  pdf_path ≠ output_path →
  (process_single_pdf pdf_path output_path
     (process_single_pdf pdf_path output_path w).2).1
  = (process_single_pdf pdf_path output_path w).1
  ∧ output_files
      (w_fsops (process_single_pdf pdf_path output_path
                  (process_single_pdf pdf_path output_path w).2).2)
    = output_files (w_fsops (process_single_pdf pdf_path output_path w).2).
Proof.
  intros _. rewrite (process_single_pdf_run pdf_path output_path w).
  cbn [fst snd]. rewrite process_single_pdf_run. cbn [fst snd log w_fsops].
  split; [reflexivity|].
  change (single_ops (log _ _ w)) with (single_ops w).
  rewrite (output_files_app (_ ++ _)).
  rewrite (output_files_app (w_fsops w)).
  apply (apply_ops_twice output_path), single_ops_path.
Qed.

Lemma process_single_pdf_rerun_witness :
  (process_single_pdf "/app/input/a.pdf" "/app/output/a.json"
     (process_single_pdf "/app/input/a.pdf" "/app/output/a.json" world_report).2).1
  = (process_single_pdf "/app/input/a.pdf" "/app/output/a.json" world_report).1.
Proof.
  apply (process_single_pdf_rerun "/app/input/a.pdf" "/app/output/a.json" world_report).
  discriminate.
Defined.

(** ** The batch *)

Lemma is_ok_document_result_length files input_dir names :
  Z.of_nat (length (batch_successes files input_dir names))
  + Z.of_nat (length (batch_failures files input_dir names))
  = Z.of_nat (length names).
Proof.
  unfold batch_successes, batch_failures.
  induction names as [|f names IH]; [done|]. cbn [List.filter].
  destruct (is_ok _); cbn [negb length]; lia.
Qed.

(** The loop of the batch when every output file is writable. *)
Lemma process_files_run (input_dir output_dir : string) (filenames : list string) :
  ∀ (processed_count error_count : Z) (w : world),
  outputs_writable w output_dir (pdf_names filenames) →
  process_files input_dir output_dir filenames processed_count error_count w
  = (Ok (processed_count
         + Z.of_nat (length (batch_successes (w_files w) input_dir
                               (pdf_names filenames))),
         error_count
         + Z.of_nat (length (batch_failures (w_files w) input_dir
                               (pdf_names filenames)))),
     log (batch_ops (w_files w) input_dir output_dir (pdf_names filenames))
       (batch_lines (w_files w) input_dir (pdf_names filenames)) w).
Proof.
  induction filenames as [|filename rest IH]; intros p ec w Hw.
  - cbn. rewrite !Z.add_0_r. do 2 f_equal.
    apply world_eq; cbn; by rewrite ?app_nil_r.
  - assert (pdf_names (filename :: rest)
            = if PyStr.endswith (PyStr.lower filename) ".pdf"
              then filename :: pdf_names rest else pdf_names rest) as Hnames
      by reflexivity.
    rewrite Hnames in *. clear Hnames. cbn [process_files].
    destruct (PyStr.endswith (PyStr.lower filename) ".pdf"); cbn [negb];
      [|by apply IH].
    assert (writable w (output_path_of output_dir filename)) as Hfile
      by (apply Hw, elem_of_cons; by left).
    assert (outputs_writable w output_dir (pdf_names rest)) as Hrest
      by (intros f Hf; apply Hw, elem_of_cons; by right).
    unfold bind at 1. cbn [print]. unfold bind at 1.
    fold (output_path_of output_dir filename).
    rewrite process_single_pdf_result
      by (apply (writable_write_error (log_line _ w)), Hfile).
    cbn [w_files log_line].
    unfold batch_successes, batch_failures, batch_ops, batch_lines.
    cbn [List.filter flat_map].
    destruct (document_result (w_files w) (os_path_join input_dir filename))
      as [d|e]; cbn [is_ok negb written length];
      rewrite IH by exact Hrest;
      cbn [w_files world_after_success world_after_failure log_line];
      unfold batch_successes, batch_failures, batch_ops, batch_lines;
      (f_equal;
       [ f_equal; apply pair_equal_spec; split; lia
       | apply world_eq; cbn; by rewrite <- ?app_assoc ]).
Qed.

Lemma pdf_names_idem l : pdf_names (pdf_names l) = pdf_names l.
Proof.
  unfold pdf_names. induction l as [|f l IH]; [done|]. cbn [List.filter].
  destruct (PyStr.endswith (PyStr.lower f) ".pdf") eqn:E; [|done].
  cbn [List.filter]. by rewrite E, IH.
Qed.

Lemma outputs_apart_check input_dir output_dir names :
  forallb
    (λ f, forallb
            (λ g, negb (String.eqb (output_path_of output_dir f)
                          (os_path_join input_dir g)))
            names)
    names = true →
  outputs_apart input_dir output_dir names.
Proof.
  intros H f g Hf%list_elem_of_In Hg%list_elem_of_In E.
  rewrite forallb_forall in H. specialize (H f Hf).
  rewrite forallb_forall in H. specialize (H g Hg).
  apply negb_true_iff, String.eqb_neq in H. done.
Qed.

(** X15.  Provided no output path of the batch is the path of one of its
    documents and every output file of the batch is writable, the loop of
    the batch does not raise.  Names that do not end in [.pdf] (in any case)
    are passed over without any effect: the loop over a listing does what
    the loop over its accepted names does.  For each accepted name, in the
    order of the listing, it prints the name, opens and dumps the output
    file of that document with its result or the sentinel, and prints the
    error when there is one.  It returns the counters advanced by the number
    of documents that went through and by the number that failed. *)
Theorem process_files_effect (input_dir output_dir : string) (filenames : list string)
    (processed_count error_count : Z) (w : world) :
  outputs_apart input_dir output_dir (pdf_names filenames) →
  outputs_writable w output_dir (pdf_names filenames) →
  (∃ w',
     process_files input_dir output_dir filenames processed_count error_count w
     = (Ok (processed_count
            + Z.of_nat (length (batch_successes (w_files w) input_dir
                                  (pdf_names filenames))),
            error_count
            + Z.of_nat (length (batch_failures (w_files w) input_dir
                                  (pdf_names filenames)))),
        w')
     ∧ w_fsops w'
       = (w_fsops w
          ++ batch_ops (w_files w) input_dir output_dir (pdf_names filenames))%list
     ∧ w_stdout w'
       = (w_stdout w ++ batch_lines (w_files w) input_dir (pdf_names filenames))%list)
  ∧ process_files input_dir output_dir (pdf_names filenames)
      processed_count error_count w
    = process_files input_dir output_dir filenames processed_count error_count w.
Proof.
  intros _ Hw. split.
  - eexists. split; [by apply process_files_run|]. done.
  - rewrite !process_files_run; rewrite ?pdf_names_idem; done.
Qed.

Lemma process_files_effect_witness :
  process_files "/app/input" "/app/output"
    (pdf_names ["a.pdf"; "b.PDF"; "notes.txt"]) 0 0 world_batch
  = process_files "/app/input" "/app/output" ["a.pdf"; "b.PDF"; "notes.txt"] 0 0
      world_batch.
Proof.
  apply (process_files_effect "/app/input" "/app/output"
           ["a.pdf"; "b.PDF"; "notes.txt"] 0 0 world_batch).
  - apply outputs_apart_check. vm_compute. reflexivity.
  - intros f _. split; [reflexivity|]. intros d. reflexivity.
Defined.

Lemma pdf_names_app l1 l2 : pdf_names (l1 ++ l2) = (pdf_names l1 ++ pdf_names l2)%list.
Proof. apply List.filter_app. Qed.

Lemma batch_ops_paths files input_dir output_dir names path :
  (∀ g, g ∈ names → output_path_of output_dir g ≠ path) →
  Forall (λ op, op_path op ≠ path) (batch_ops files input_dir output_dir names).
Proof.
  intros H. unfold batch_ops. apply Forall_forall. intros op.
  rewrite list_elem_of_In, in_flat_map. intros (g & Hg%list_elem_of_In & Hop).
  specialize (H g Hg). destruct Hop as [<-|[<-|[]]]; done.
Qed.

(** X16.  In a batch none of whose output paths is the path of one of its
    documents and all of whose output files are writable, the output file of
    a document holds the result of that document, as if it had been
    processed alone: what other documents of the listing are or whether they
    fail changes nothing, provided no later accepted name of the listing is
    given the same output path. *)
Theorem batch_output_is_own_result
    (input_dir output_dir filename : string) (before after : list string)
    (processed_count error_count : Z) (w : world) :
  outputs_apart input_dir output_dir (pdf_names (before ++ filename :: after)) →
  outputs_writable w output_dir (pdf_names (before ++ filename :: after)) →
  PyStr.endswith (PyStr.lower filename) ".pdf" = true →
  (∀ g, g ∈ pdf_names after →
        output_path_of output_dir g ≠ output_path_of output_dir filename) →
  output_files
    (w_fsops (process_files input_dir output_dir (before ++ filename :: after)
                processed_count error_count w).2)
  !! output_path_of output_dir filename
  = output_files
      (w_fsops (process_single_pdf (os_path_join input_dir filename)
                  (output_path_of output_dir filename) w).2)
    !! output_path_of output_dir filename
  ∧ output_files
      (w_fsops (process_files input_dir output_dir (before ++ filename :: after)
                  processed_count error_count w).2)
    !! output_path_of output_dir filename
    = Some (JsonDoc (written (document_result (w_files w)
                                (os_path_join input_dir filename)))).
Proof.
  intros _ Hw Hpdf Hafter.
  assert (pdf_names (before ++ filename :: after)
          = (pdf_names before ++ filename :: pdf_names after)%list) as Hnames.
  { rewrite pdf_names_app. unfold pdf_names at 2. cbn [List.filter].
    by rewrite Hpdf. }
  rewrite process_files_run by done. cbn [snd log w_fsops].
  match goal with
  | |- ?L = _ ∧ _ =>
      assert (L = Some (JsonDoc (written (document_result (w_files w)
                                            (os_path_join input_dir filename)))))
        as Hown
  end.
  { rewrite Hnames. unfold batch_ops. rewrite flat_map_app. cbn [flat_map].
    fold (batch_ops (w_files w) input_dir output_dir (pdf_names before)).
    fold (batch_ops (w_files w) input_dir output_dir (pdf_names after)).
    rewrite !app_assoc, output_files_app.
    rewrite apply_ops_other by by apply batch_ops_paths.
    apply output_files_written. }
  split; [|exact Hown]. rewrite Hown.
  assert (writable w (output_path_of output_dir filename)) as Hfile.
  { apply Hw. rewrite Hnames. apply elem_of_app. right. apply elem_of_cons. by left. }
  rewrite process_single_pdf_result by by apply writable_write_error.
  symmetry.
  destruct (document_result (w_files w) (os_path_join input_dir filename));
    apply output_files_written.
Qed.

Lemma batch_output_is_own_result_witness :
  output_files
    (w_fsops (process_files "/app/input" "/app/output"
                ([] ++ "a.pdf" :: ["b.PDF"; "notes.txt"]) 0 0 world_batch).2)
  !! output_path_of "/app/output" "a.pdf"
  = Some (JsonDoc (written (document_result (w_files world_batch)
                              (os_path_join "/app/input" "a.pdf")))).
Proof.
  apply (batch_output_is_own_result "/app/input" "/app/output" "a.pdf"
           [] ["b.PDF"; "notes.txt"] 0 0 world_batch).
  - apply outputs_apart_check. vm_compute. reflexivity.
  - intros f _. split; [reflexivity|]. intros d. reflexivity.
  - reflexivity.
  - intros g Hg. change (pdf_names ["b.PDF"; "notes.txt"]) with ["b.PDF"] in Hg.
    apply list_elem_of_singleton in Hg as ->. intros H. vm_compute in H.
    discriminate H.
Defined.

(** X17.  Whatever [os.makedirs] and [os.listdir] do to the world, when both
    return, no output path of the batch is the path of one of its documents
    and every output file of the batch is writable, [process_all_pdfs] ends
    without raising, whatever the documents are.  Its file operations and
    printed lines after the two calls are those of the accepted names of the
    listing, in order, followed by one summary line whose two numbers are
    the count of documents that went through and the count of those that
    failed, which add up to the number of accepted names. *)
Theorem process_all_pdfs_summary
    (os_makedirs : string → M unit) (os_listdir : string → M (list string))
    (input_dir output_dir : string) (filenames : list string) (w w1 w2 : world) :
  os_makedirs output_dir w = (Ok tt, w1) →
  os_listdir input_dir w1 = (Ok filenames, w2) →
  outputs_apart input_dir output_dir (pdf_names filenames) →
  outputs_writable w2 output_dir (pdf_names filenames) →
  (process_all_pdfs os_makedirs os_listdir input_dir output_dir w).1 = Ok tt
  ∧ w_fsops (process_all_pdfs os_makedirs os_listdir input_dir output_dir w).2
    = (w_fsops w2
       ++ batch_ops (w_files w2) input_dir output_dir (pdf_names filenames))%list
  ∧ w_stdout (process_all_pdfs os_makedirs os_listdir input_dir output_dir w).2
    = (w_stdout w2
       ++ batch_lines (w_files w2) input_dir (pdf_names filenames)
       ++ [ "Processing complete. Success: "
            +:+ PyStr.str_of_int
                  (Z.of_nat (length (batch_successes (w_files w2) input_dir
                                       (pdf_names filenames))))
            +:+ ", Errors: "
            +:+ PyStr.str_of_int
                  (Z.of_nat (length (batch_failures (w_files w2) input_dir
                                       (pdf_names filenames)))) ])%list
  ∧ Z.of_nat (length (batch_successes (w_files w2) input_dir (pdf_names filenames)))
    + Z.of_nat (length (batch_failures (w_files w2) input_dir (pdf_names filenames)))
    = Z.of_nat (length (pdf_names filenames)).
Proof.
  intros Hmk Hls _ Hw.
  unfold process_all_pdfs. rewrite bind_eq, Hmk. cbn [fst snd].
  rewrite bind_eq, Hls. cbn [fst snd].
  rewrite bind_eq, process_files_run by done. cbn [fst snd print log_line log
    w_fsops w_stdout]. rewrite !Z.add_0_l, <- app_assoc.
  split_and!; try done. apply is_ok_document_result_length.
Qed.

Lemma process_all_pdfs_summary_witness :
  (process_all_pdfs makedirs_in_place listdir_batch "/app/input" "/app/output"
     world_batch).1 = Ok tt.
Proof.
  apply (process_all_pdfs_summary makedirs_in_place listdir_batch
           "/app/input" "/app/output"
           ["a.pdf"; "b.PDF"; "notes.txt"] world_batch world_batch world_batch).
  - reflexivity.
  - reflexivity.
  - apply outputs_apart_check. vm_compute. reflexivity.
  - intros f _. split; [reflexivity|]. intros d. reflexivity.
Defined.

(** X18.  [os.makedirs] runs before [os.listdir], and both before any
    document is read.  When [os.makedirs] raises, [process_all_pdfs] raises
    that exception at once, whatever [os.listdir] would do.  When
    [os.makedirs] returns and [os.listdir] raises (the input directory is
    missing, say), [process_all_pdfs] raises that exception, and the world is
    left as the two calls left it: no document is processed, no output file
    is written and no line is printed, the summary included. *)
Theorem process_all_pdfs_os_failure
    (os_makedirs : string → M unit) (os_listdir : string → M (list string))
    (input_dir output_dir : string) (w w1 : world) (e : exn) :
  (os_makedirs output_dir w = (Raise e, w1) →
   process_all_pdfs os_makedirs os_listdir input_dir output_dir w = (Raise e, w1))
  ∧ (∀ w2, os_makedirs output_dir w = (Ok tt, w1) →
           os_listdir input_dir w1 = (Raise e, w2) →
           process_all_pdfs os_makedirs os_listdir input_dir output_dir w
           = (Raise e, w2)).
Proof.
  split.
  - intros Hmk. unfold process_all_pdfs. by rewrite bind_eq, Hmk.
  - intros w2 Hmk Hls. unfold process_all_pdfs. rewrite bind_eq, Hmk.
    cbn [fst snd]. by rewrite bind_eq, Hls.
Qed.

Lemma process_all_pdfs_os_failure_witness :
  process_all_pdfs makedirs_in_place listdir_missing "/app/input" "/app/output"
    world_batch
  = (Raise "[Errno 2] No such file or directory: '/app/input'", world_batch).
Proof.
  apply (process_all_pdfs_os_failure makedirs_in_place listdir_missing
           "/app/input" "/app/output" world_batch world_batch
           "[Errno 2] No such file or directory: '/app/input'").
  - reflexivity.
  - reflexivity.
Defined.

(** ** The name of the output file *)

Lemma replace_absent old new s :
  PyStr.contains old s = false → PyStr.replace_from old new 0 s = s.
Proof.
  induction s as [|c s IH]; [done|]. cbn [PyStr.contains PyStr.replace_from].
  intros [Hp Hc]%orb_false_iff. rewrite Hp. by rewrite IH.
Qed.

Lemma prefix_pdf_one_more c s :
  String.prefix ".pdf" (String c (s +:+ ".pd")) = false →
  String.prefix ".pdf" (String c (s +:+ ".pdf")) = false.
Proof.
  destruct s as [|c1 [|c2 [|c3 s]]];
    rewrite ?string_app_cons, ?string_app_nil_l; cbn [String.prefix];
    repeat (destruct (ascii_dec _ _) as [?|?]; try done); subst;
    try done; by destruct (s +:+ ".pd").
Qed.

Lemma replace_pdf_suffix stem :
  PyStr.contains ".pdf" (stem +:+ ".pd") = false →
  PyStr.replace (stem +:+ ".pdf") ".pdf" ".json" = stem +:+ ".json".
Proof.
  unfold PyStr.replace. induction stem as [|c stem IH]; [done|].
  rewrite !string_app_cons. cbn [PyStr.contains PyStr.replace_from].
  intros [Hp Hc]%orb_false_iff. rewrite (prefix_pdf_one_more _ _ Hp).
  by rewrite IH.
Qed.

(** X19.  A name made of a stem and the suffix [.pdf], with no other
    occurrence of [.pdf] in it, gets the output file of that stem with the
    suffix [.json] in the output directory. *)
Theorem output_name_replaces_suffix (output_dir stem : string) :
  PyStr.contains ".pdf" (stem +:+ ".pd") = false →
  output_path_of output_dir (stem +:+ ".pdf")
  = os_path_join output_dir (stem +:+ ".json").
Proof. intros H. unfold output_path_of. by rewrite replace_pdf_suffix. Qed.

Lemma output_name_replaces_suffix_witness :
  output_path_of "/app/output" ("report" +:+ ".pdf")
  = os_path_join "/app/output" ("report" +:+ ".json").
Proof. apply output_name_replaces_suffix. reflexivity. Defined.

(** X20.  The suffix test of the batch ignores case and the replacement does
    not: a name that holds no lower-case [.pdf], such as one ending in
    [.PDF], is accepted when it ends in [.pdf] in some case, and its output
    file then has the very name of the input file, without [.json]. *)
Theorem output_name_kept_without_lowercase_suffix
    (files : gmap string (result document)) (input_dir output_dir filename : string) :
  PyStr.contains ".pdf" filename = false →
  output_path_of output_dir filename = os_path_join output_dir filename
  ∧ (PyStr.endswith (PyStr.lower filename) ".pdf" = true →
     batch_ops files input_dir output_dir (pdf_names [filename])
     = [ OpOpenW (os_path_join output_dir filename);
         OpDump (os_path_join output_dir filename)
           (written (document_result files (os_path_join input_dir filename))) ]).
Proof.
  intros H.
  assert (output_path_of output_dir filename = os_path_join output_dir filename) as Hp.
  { unfold output_path_of, PyStr.replace. by rewrite replace_absent. }
  split; [exact Hp|]. intros Hpdf. unfold pdf_names, batch_ops.
  cbn [List.filter]. rewrite Hpdf. cbn [flat_map]. by rewrite Hp.
Qed.

Lemma output_name_kept_without_lowercase_suffix_witness :
  PyStr.endswith (PyStr.lower "b.PDF") ".pdf" = true
  ∧ output_path_of "/app/output" "b.PDF" = os_path_join "/app/output" "b.PDF".
Proof.
  split; [reflexivity|].
  apply (output_name_kept_without_lowercase_suffix ∅ "/app/input" "/app/output" "b.PDF").
  reflexivity.
Defined.

(** ** The runs the page scan delivers *)

(** X21.  Every run the page scan hands to the heuristics has a text that is
    not blank and is trimmed, a page between 1 and the number of pages, and a
    bold flag that tells whether its font name contains [bold] in any
    case. *)
Theorem scanned_runs_invariant (doc : document) (spans_data : list span_info)
    (r : span_info) :
  collect_spans 0 (doc_pages doc) = Ok spans_data →
  r ∈ spans_data →
  PyStr.is_empty (si_text r) = false
  ∧ PyStr.strip (si_text r) = si_text r
  ∧ 1 ≤ si_page r ≤ Z.of_nat (length (doc_pages doc))
  ∧ si_bold r = PyStr.contains "bold" (PyStr.lower (si_font_name r)).
Proof.
  intros Hs Hr.
  pose proof (collect_spans_page_range _ _ _ _ Hs Hr) as Hpage.
  assert (∀ pages page_num l, collect_spans page_num pages = Ok l → r ∈ l →
            ∃ n (sp : span), r ∈ span_infos n sp) as Hsrc.
  { induction pages as [|[blocks|e] pages IH]; intros page_num l; cbn [collect_spans];
      [by intros [= <-] ?%elem_of_nil| |done].
    destruct (collect_spans (page_num + 1) pages) as [rest|] eqn:E; [|done].
    intros [= <-] [Hin|Hin]%elem_of_app; [|by eapply IH].
    unfold page_spans in Hin. apply list_elem_of_In, in_flat_map in Hin as (b & _ & Hin).
    destruct (negb _); [done|].
    apply in_flat_map in Hin as (ln & _ & Hin).
    apply in_flat_map in Hin as (sp & _ & Hin).
    exists page_num, sp. by apply list_elem_of_In. }
  destruct (Hsrc _ _ _ Hs Hr) as (n & sp & Hsp). unfold span_infos in Hsp.
  destruct (PyStr.is_empty (PyStr.strip (span_text sp))) eqn:E;
    [by apply elem_of_nil in Hsp|].
  apply list_elem_of_singleton in Hsp as ->. cbn [si_text si_bold si_font_name si_page] in *.
  split_and!; [exact E|apply strip_idem|lia|lia|apply is_bold_font_lower].
Qed.

Lemma scanned_runs_invariant_witness :
  PyStr.is_empty (si_text (title_example_run "Header" 30 1)) = false
  ∧ PyStr.strip (si_text (title_example_run "Header" 30 1))
    = si_text (title_example_run "Header" 30 1)
  ∧ 1 ≤ si_page (title_example_run "Header" 30 1)
    ≤ Z.of_nat (length (doc_pages doc_title_example))
  ∧ si_bold (title_example_run "Header" 30 1)
    = PyStr.contains "bold" (PyStr.lower (si_font_name (title_example_run "Header" 30 1))).
Proof.
  apply (scanned_runs_invariant doc_title_example title_example_runs).
  - vm_compute. reflexivity.
  - unfold title_example_runs. apply elem_of_cons. right. apply elem_of_cons. right.
    apply elem_of_cons. by left.
Defined.

(** ** What the heuristic outline reads of a run *)

Lemma same_text_size_page_detect l l' :
  Forall2 same_text_size_page l l' →
  detect_heading_levels l = detect_heading_levels l'.
Proof.
  intros H. unfold detect_heading_levels, collect_font_sizes.
  replace (map si_font_size l') with (map si_font_size l); [done|].
  induction H as [|a b l l' (_ & Hs & _) _ IH]; [done|]. cbn. by rewrite Hs, IH.
Qed.

Lemma same_text_size_page_loop m l l' :
  Forall2 same_text_size_page l l' →
  ∀ st, heading_loop is_likely_heading m l st = heading_loop is_likely_heading m l' st.
Proof.
  unfold heading_loop.
  induction 1 as [|a b l l' (Ht & Hs & Hp) _ IH]; intros st; [done|].
  cbn [fold_left]. rewrite <- IH. f_equal.
  unfold heading_step, heading_key, heading_text.
  rewrite !is_likely_heading_eq. by rewrite Ht, Hs, Hp.
Qed.

(** X22.  The heuristic outline reads of each run its text, its font size and
    its page, and nothing else: runs that differ in font name, bold flag or
    vertical position give the same outline, so bold text is treated like
    any other text. *)
Theorem heuristic_outline_reads_text_size_page (l l' : list span_info) :
  Forall2 same_text_size_page l l' →
  heuristic_outline detect_heading_levels is_likely_heading l
  = heuristic_outline detect_heading_levels is_likely_heading l'.
Proof.
  intros H. unfold heuristic_outline.
  by rewrite (same_text_size_page_detect _ _ H), (same_text_size_page_loop _ _ _ H).
Qed.

Lemma heuristic_outline_reads_text_size_page_witness :
  heuristic_outline detect_heading_levels is_likely_heading
    [ {| si_text := "Results"; si_font_size := 14; si_font_name := "Times-Bold";
         si_bold := true; si_page := 2; si_y_pos := 90 |} ]
  = heuristic_outline detect_heading_levels is_likely_heading
      [ {| si_text := "Results"; si_font_size := 14; si_font_name := "Times";
           si_bold := false; si_page := 2; si_y_pos := 500 |} ].
Proof.
  apply heuristic_outline_reads_text_size_page.
  repeat constructor.
Defined.
